(** * Background-remover request handlers: a shallow embedding

    The repository holds two route actions that wrap the remove.bg provider:

    - the Direct-Upload action ([api.remove.ts], app-proxy authenticated),
      which answers with the processed image as a binary body;
    - the Catalog-Aware action (the index route), which accepts an uploaded
      file or an image URL and answers with a JSON-like envelope.

    Both are straight-line asynchronous functions.  They are embedded as
    functions of a [World], the record of what every external collaborator
    answers during one request, into a small trace/exception monad: the
    trace lists the external calls in the order the action makes them, the
    outcome is the value the action returns or the value it throws. *)

From Stdlib Require Import List String Ascii NArith ZArith Lia Bool.
From Stdlib.Strings Require Import Byte.
From Stdlib Require Import DecimalString.
From Stdlib Require DecimalFacts DecimalNat.
Import ListNotations.

Local Open Scope string_scope.
Local Open Scope list_scope.

(* ===================================================================== *)
(** ** Base64 text encoding of byte buffers *)
(* ===================================================================== *)

Module Base64.

Local Open Scope N_scope.

(** Modelled from the spec: the runtime's [Buffer.prototype.toString('base64')]
    and [Buffer.from(text, 'base64')] are not part of the repository; the spec
    only says the payload is encoded "as text (base64)".  The encoder is the
    standard padded alphabet; the decoder is the lenient one of the runtime:
    it accepts the URL-safe digits as well, skips characters outside the
    alphabet and stops at the first padding character. *)
Definition alphabet : list ascii :=
  list_ascii_of_string
    "ABCDEFGHIJKLMNOPQRSTUVWXYZabcdefghijklmnopqrstuvwxyz0123456789+/".

(** Modelled from the spec: the padding character of the encoding. *)
Definition pad : ascii := "="%char.

(** Modelled from the spec: the digit of a six-bit group. *)
Definition digit (n : N) : ascii := nth (N.to_nat n) alphabet pad.

(** Modelled from the spec: the six-bit group of a digit, [None] for a
    character outside the alphabet. *)
Definition undigit (c : ascii) : option N :=
  let n := N_of_ascii c in
  if (65 <=? n) && (n <=? 90) then Some (n - 65)
  else if (97 <=? n) && (n <=? 122) then Some (n - 71)
  else if (48 <=? n) && (n <=? 57) then Some (n + 4)
  else if (n =? 43) || (n =? 45) then Some 62
  else if (n =? 47) || (n =? 95) then Some 63
  else None.

(** Modelled from the spec: three bytes give four digits; a final group of
    one or two bytes is completed with padding. *)
Fixpoint encode_bytes (bs : list byte) : list ascii :=
  match bs with
  | [] => []
  | [a] =>
      let x := Byte.to_N a in
      [digit (x / 4); digit ((x mod 4) * 16); pad; pad]
  | [a; b] =>
      let x := Byte.to_N a in
      let y := Byte.to_N b in
      [digit (x / 4); digit ((x mod 4) * 16 + y / 16);
       digit ((y mod 16) * 4); pad]
  | a :: b :: c :: rest =>
      let x := Byte.to_N a in
      let y := Byte.to_N b in
      let z := Byte.to_N c in
      digit (x / 4) :: digit ((x mod 4) * 16 + y / 16)
        :: digit ((y mod 16) * 4 + z / 64) :: digit (z mod 64)
        :: encode_bytes rest
  end.

(** Modelled from the spec: the six-bit groups of a text, up to the first
    padding character, characters outside the alphabet skipped. *)
Fixpoint sextets (cs : list ascii) : list N :=
  match cs with
  | [] => []
  | c :: rest =>
      if Ascii.eqb c pad then []
      else match undigit c with
           | Some n => n :: sextets rest
           | None => sextets rest
           end
  end.

(** Modelled from the spec: the byte of a number, taken modulo 256. *)
Definition byte_of_N (n : N) : byte :=
  match Byte.of_N (n mod 256) with
  | Some b => b
  | None => x00
  end.

(** Modelled from the spec: four groups give three bytes; three trailing
    groups give two bytes, two give one, a single one gives nothing. *)
Fixpoint decode_sextets (s : list N) : list byte :=
  match s with
  | s1 :: s2 :: s3 :: s4 :: rest =>
      byte_of_N (s1 * 4 + s2 / 16)
        :: byte_of_N ((s2 mod 16) * 16 + s3 / 4)
        :: byte_of_N ((s3 mod 4) * 64 + s4)
        :: decode_sextets rest
  | [s1; s2; s3] =>
      [byte_of_N (s1 * 4 + s2 / 16); byte_of_N ((s2 mod 16) * 16 + s3 / 4)]
  | [s1; s2] => [byte_of_N (s1 * 4 + s2 / 16)]
  | _ => []
  end.

(** Modelled from the spec: [buffer.toString('base64')], the text of a
    buffer. *)
Definition encode (bs : list byte) : string :=
  string_of_list_ascii (encode_bytes bs).

(** Modelled from the spec: [Buffer.from(text, 'base64')], the buffer of a
    text. *)
Definition decode (s : string) : list byte :=
  decode_sextets (sextets (list_ascii_of_string s)).

End Base64.

(* ===================================================================== *)
(** ** Values that cross the handler boundary *)
(* ===================================================================== *)

(** A [File] of the form data: [file.name], and the bytes that
    [file.arrayBuffer()] resolves to; [file.size] is their number. *)
Record File := { file_name : string; file_type : string; file_bytes : list byte }.

Definition file_size (f : File) : nat := List.length (file_bytes f).

(** [FormData.get] answers a [File], a string, or [null]: the casts
    [as File] and [as string | null] of the source do not exist at run time. *)
Inductive FormDataEntryValue :=
| EntryString (s : string)
| EntryFile (f : File).

(** The multipart body in field order; [get] answers the first entry of a
    name and [None] (JavaScript's [null]) when there is none. *)
Definition FormData := list (string * FormDataEntryValue).

Fixpoint FormData_get (name : string) (fd : FormData) : option FormDataEntryValue :=
  match fd with
  | [] => None
  | (k, v) :: rest => if String.eqb k name then Some v else FormData_get name rest
  end.

(** The session object of the authentication collaborator, opaque here. *)
Record Session := { shop : string }.

#[warnings="-register-all"] Inductive Json :=
| JBool (b : bool)
| JString (s : string)
| JObject (fields : list (string * Json)).

Inductive Body :=
| BodyText (s : string)
| BodyJson (j : Json)
| BodyBuffer (bytes : list byte).

Record Response := { status : nat; headers : list (string * string); body : Body }.

(** What an action hands back to the router: a [Response], or a plain
    object that the router serialises itself. *)
Inductive ActionResult :=
| ResultResponse (r : Response)
| ResultData (d : Json).

(** Values a collaborator can throw: an [Error] with its message, a
    [Response] (the authentication collaborator throws those), or anything
    else. *)
Inductive JsValue :=
| JsError (message : string)
| JsResponse (r : Response)
| JsOther (description : string).

(** The provider's answer, [result.base64img]. *)
Record RemoveBgResult := { r_base64img : string }.

(** Options of [removeBackgroundFromImageBase64]. *)
Record Base64Options :=
  { b_base64img : string; b_apiKey : string; b_size : string; b_type : string }.

(** Options of [removeBackgroundFromImageUrl]; [url] is whatever
    [formData.get("imageUrl")] answered, [null] included. *)
Record UrlOptions :=
  { u_url : option FormDataEntryValue; u_apiKey : string;
    u_size : string; u_type : string }.

(* ===================================================================== *)
(** ** The trace and exception monad of an action *)
(* ===================================================================== *)

Inductive Outcome (A : Type) :=
| Returns (a : A)
| Throws (e : JsValue).

Arguments Returns {A} a.
Arguments Throws {A} e.

(** External calls and log lines, in the order the action makes them. *)
Inductive Event :=
| CallAppProxy
| CallAdmin
| CallFormData
| CallArrayBuffer (f : File)
| CallImport
| CallRemoveBase64 (o : Base64Options)
| CallRemoveUrl (o : UrlOptions)
| ConsoleError (msg : string) (e : option JsValue).

Definition Trace := list Event.

Definition Async (A : Type) : Type := Outcome A * Trace.

Definition ret {A} (a : A) : Async A := (Returns a, []).

Definition throw {A} (e : JsValue) : Async A := (Throws e, []).

Definition bind {A B} (m : Async A) (k : A -> Async B) : Async B :=
  match m with
  | (Returns a, t) => let (o, t') := k a in (o, t ++ t')
  | (Throws e, t) => (Throws e, t)
  end.

(** [try { m } catch (error) { h error }] *)
Definition try_catch {A} (m : Async A) (h : JsValue -> Async A) : Async A :=
  match m with
  | (Returns a, t) => (Returns a, t)
  | (Throws e, t) => let (o, t') := h e in (o, t ++ t')
  end.

(** [await] of an external call: the event is recorded, then the call
    answers or throws. *)
Definition call {A} (ev : Event) (o : Outcome A) : Async A := (o, [ev]).

Definition emit (ev : Event) : Async unit := (Returns tt, [ev]).

Declare Scope async_scope.
Delimit Scope async_scope with async.
Notation "x <- m ;; k" := (bind m (fun x => k))
  (at level 61, m at next level, right associativity) : async_scope.
Notation "m ;;; k" := (bind m (fun _ => k))
  (at level 61, right associativity) : async_scope.
Local Open Scope async_scope.

Definition outcome {A} (m : Async A) : Outcome A := fst m.
Definition trace {A} (m : Async A) : Trace := snd m.

Definition is_gateway_call (ev : Event) : bool :=
  match ev with
  | CallRemoveBase64 _ | CallRemoveUrl _ => true
  | _ => false
  end.

(** How many times the provider was invoked. *)
Definition gateway_calls (t : Trace) : nat := List.length (filter is_gateway_call t).

(** Everything the action does after authentication touches the body. *)
Definition is_body_processing (ev : Event) : bool :=
  match ev with
  | CallFormData | CallArrayBuffer _ => true
  | _ => false
  end.

(* ===================================================================== *)
(** ** JavaScript primitives the actions use *)
(* ===================================================================== *)

(** Truthiness of a string: every string but the empty one. *)
Definition truthy_string (s : string) : bool :=
  match s with
  | EmptyString => false
  | String _ _ => true
  end.

(** Truthiness of [formData.get(..)]: [null] and the empty string are
    falsy, a [File] object is truthy whatever its size. *)
Definition truthy (v : option FormDataEntryValue) : bool :=
  match v with
  | None => false
  | Some (EntryString s) => truthy_string s
  | Some (EntryFile _) => true
  end.

(** [imageFile.size === 0]: the property is [undefined] on a string. *)
Definition size_is_zero (v : option FormDataEntryValue) : bool :=
  match v with
  | Some (EntryFile f) => Nat.eqb (file_size f) 0
  | _ => false
  end.

(** [Number.prototype.toString()] of a length. *)
Definition toString (n : nat) : string := NilZero.string_of_uint (Nat.to_uint n).

(** [new Response(text, { status })] *)
Definition Response_text (text : string) (st : nat) : Response :=
  {| status := st;
     headers := [("content-type", "text/plain;charset=UTF-8")];
     body := BodyText text |}.

(** [Response.json(data, { status })] *)
Definition Response_json (data : Json) (st : nat) : Response :=
  {| status := st;
     headers := [("content-type", "application/json")];
     body := BodyJson data |}.

(** [new Response(buffer, { headers })]: the status defaults to 200. *)
Definition Response_buffer (buffer : list byte) (hs : list (string * string)) : Response :=
  {| status := 200; headers := hs; body := BodyBuffer buffer |}.

(** The error envelope [{ error: message }]. *)
Definition envelope (message : string) : Json := JObject [("error", JString message)].

(** [imageFile.arrayBuffer()]: a [File] resolves to its bytes; a string has
    no such method and [null] no properties, so the call is a [TypeError]. *)
Definition arrayBuffer (v : option FormDataEntryValue) : Async (list byte) :=
  match v with
  | Some (EntryFile f) => emit (CallArrayBuffer f) ;;; ret (file_bytes f)
  | Some (EntryString _) => throw (JsError "imageFile.arrayBuffer is not a function")
  | None => throw (JsError "Cannot read properties of null (reading 'arrayBuffer')")
  end.

(* ===================================================================== *)
(** ** The collaborators of one request *)
(* ===================================================================== *)

(** What the outside answers during one request: the two authentication
    entry points, the form-data parser, the process environment, the
    dynamic import of the provider module, and the provider's two calls. *)
Record World := {
  authenticate_public_appProxy : Outcome (option Session);
  authenticate_admin : Outcome Session;
  request_formData : Outcome FormData;
  REMOVE_BG_API_KEY : option string;
  import_remove_bg : Outcome unit;
  removeBackgroundFromImageBase64 : Base64Options -> Outcome RemoveBgResult;
  removeBackgroundFromImageUrl : UrlOptions -> Outcome RemoveBgResult
}.

(* ===================================================================== *)
(** ** The Direct-Upload action *)
(* ===================================================================== *)

Module DirectUpload.

(** The body of the [try] block. *)
Definition guarded (w : World) (buffer : list byte) : Async ActionResult :=
  match REMOVE_BG_API_KEY w with
  | None | Some EmptyString =>
      emit (ConsoleError "Missing REMOVE_BG_API_KEY environment variable" None) ;;;
      ret (ResultResponse
             (Response_json (envelope "Background removal service not configured") 500))
  | Some apiKey =>
      _ <- call CallImport (import_remove_bg w) ;;
      let base64img := Base64.encode buffer in
      let options :=
        {| b_base64img := base64img; b_apiKey := apiKey;
           b_size := "regular"; b_type := "auto" |} in
      result <- call (CallRemoveBase64 options)
                     (removeBackgroundFromImageBase64 w options) ;;
      let processedImageBuffer := Base64.decode (r_base64img result) in
      ret (ResultResponse
             (Response_buffer processedImageBuffer
                [("Content-Type", "image/png");
                 ("Content-Length", toString (List.length processedImageBuffer))]))
  end.

(** The [catch] block. *)
Definition handler (error : JsValue) : Async ActionResult :=
  emit (ConsoleError "Error from Remove.bg API:" (Some error)) ;;;
  ret (ResultResponse (Response_json (envelope "Failed to process image") 500)).

Definition action (w : World) : Async ActionResult :=
  session <- call CallAppProxy (authenticate_public_appProxy w) ;;
  match session with
  | None => ret (ResultResponse (Response_text "Unauthorized" 401))
  | Some _ =>
      formData <- call CallFormData (request_formData w) ;;
      let imageFile := FormData_get "image" formData in
      if negb (truthy imageFile) then
        ret (ResultResponse (Response_json (envelope "No image provided") 400))
      else
        buffer <- arrayBuffer imageFile ;;
        try_catch (guarded w buffer) handler
  end.

End DirectUpload.

(* ===================================================================== *)
(** ** The Catalog-Aware action *)
(* ===================================================================== *)

Module CatalogAware.

(** [imageFile && imageFile.name ? imageFile.name
      : (imageUrl ? "Store Product Image" : "Processed Image")];
    [name] is [undefined] on a string entry. *)
Definition originalName (imageFile imageUrl : option FormDataEntryValue) : string :=
  let otherwise :=
    if truthy imageUrl then "Store Product Image" else "Processed Image" in
  match imageFile with
  | Some (EntryFile f) =>
      if truthy_string (file_name f) then file_name f else otherwise
  | _ => otherwise
  end.

(** [let base64img = ""; if (imageFile && imageFile.size > 0) { ... }];
    [size] is [undefined] on a string entry and [undefined > 0] is false. *)
Definition read_base64img (imageFile : option FormDataEntryValue) : Async string :=
  match imageFile with
  | Some (EntryFile f) =>
      if Nat.ltb 0 (file_size f) then
        buffer <- arrayBuffer imageFile ;;
        ret (Base64.encode buffer)
      else ret ""
  | _ => ret ""
  end.

(** The body of the [try] block. *)
Definition guarded (w : World) (imageFile imageUrl : option FormDataEntryValue)
  : Async ActionResult :=
  match REMOVE_BG_API_KEY w with
  | None | Some EmptyString =>
      ret (ResultResponse
             (Response_json
                (envelope
                   "Background removal service not configured (missing REMOVE_BG_API_KEY).")
                500))
  | Some apiKey =>
      _ <- call CallImport (import_remove_bg w) ;;
      base64img <- read_base64img imageFile ;;
      result <-
        (if truthy_string base64img then
           let options :=
             {| b_base64img := base64img; b_apiKey := apiKey;
                b_size := "regular"; b_type := "auto" |} in
           call (CallRemoveBase64 options) (removeBackgroundFromImageBase64 w options)
         else
           let options :=
             {| u_url := imageUrl; u_apiKey := apiKey;
                u_size := "regular"; u_type := "auto" |} in
           call (CallRemoveUrl options) (removeBackgroundFromImageUrl w options)) ;;
      ret (ResultData
             (JObject
                [("success", JBool true);
                 ("processedImageBase64", JString (r_base64img result));
                 ("originalName", JString (originalName imageFile imageUrl))]))
  end.

(** [error instanceof Error ? error.message : "Unknown error"] *)
Definition errorMessage (error : JsValue) : string :=
  match error with
  | JsError message => message
  | _ => "Unknown error"
  end.

(** The [catch] block. *)
Definition handler (error : JsValue) : Async ActionResult :=
  emit (ConsoleError "Error from Remove.bg API:" (Some error)) ;;;
  ret (ResultResponse
         (Response_json
            (envelope (String.append "Failed to process image: " (errorMessage error)))
            500)).

Definition action (w : World) : Async ActionResult :=
  _ <- call CallAdmin (authenticate_admin w) ;;
  formData <- call CallFormData (request_formData w) ;;
  let imageFile := FormData_get "image" formData in
  let imageUrl := FormData_get "imageUrl" formData in
  if (negb (truthy imageFile) || size_is_zero imageFile) && negb (truthy imageUrl) then
    ret (ResultResponse (Response_json (envelope "No image provided") 400))
  else
    try_catch (guarded w imageFile imageUrl) handler.

End CatalogAware.

(* ===================================================================== *)
(** ** Vocabulary of the properties *)
(* ===================================================================== *)

Inductive Handler := Direct | Catalog.

Definition run (h : Handler) (w : World) : Async ActionResult :=
  match h with
  | Direct => DirectUpload.action w
  | Catalog => CatalogAware.action w
  end.

(** The authentication collaborator answered with a session. *)
Definition authenticated (h : Handler) (w : World) (s : Session) : Prop :=
  match h with
  | Direct => authenticate_public_appProxy w = Returns (Some s)
  | Catalog => authenticate_admin w = Returns s
  end.

(** The authentication collaborator signalled that there is no valid
    session: the app-proxy entry point answers without a session, the
    admin entry point throws. *)
Definition unauthenticated (h : Handler) (w : World) : Prop :=
  match h with
  | Direct => authenticate_public_appProxy w = Returns None
  | Catalog => exists e, authenticate_admin w = Throws e
  end.

Definition auth_event (h : Handler) : Event :=
  match h with
  | Direct => CallAppProxy
  | Catalog => CallAdmin
  end.

(** [process.env.REMOVE_BG_API_KEY] is unset or empty. *)
Definition key_missing (w : World) : Prop :=
  REMOVE_BG_API_KEY w = None \/ REMOVE_BG_API_KEY w = Some "".

(** A provider call of the trace threw [e]. *)
Definition gateway_raised (w : World) (t : Trace) (e : JsValue) : Prop :=
  (exists o, In (CallRemoveBase64 o) t /\ removeBackgroundFromImageBase64 w o = Throws e)
  \/ (exists o, In (CallRemoveUrl o) t /\ removeBackgroundFromImageUrl w o = Throws e).

(** A provider call of the trace answered [r]. *)
Definition gateway_answered (w : World) (t : Trace) (r : RemoveBgResult) : Prop :=
  (exists o, In (CallRemoveBase64 o) t /\ removeBackgroundFromImageBase64 w o = Returns r)
  \/ (exists o, In (CallRemoveUrl o) t /\ removeBackgroundFromImageUrl w o = Returns r).

(** A form field that is missing or holds the empty string. *)
Definition absent_or_blank (v : option FormDataEntryValue) : Prop :=
  v = None \/ v = Some (EntryString "").

(** A form field that holds a file of no bytes. *)
Definition empty_file (v : option FormDataEntryValue) : Prop :=
  exists f, v = Some (EntryFile f) /\ file_bytes f = [].

(** The fixed provider options of the encoded-payload call. *)
Definition base64_options (bytes : list byte) (apiKey : string) : Base64Options :=
  {| b_base64img := Base64.encode bytes; b_apiKey := apiKey;
     b_size := "regular"; b_type := "auto" |}.

(** The fixed provider options of the by-URL call. *)
Definition url_options (url : option FormDataEntryValue) (apiKey : string) : UrlOptions :=
  {| u_url := url; u_apiKey := apiKey; u_size := "regular"; u_type := "auto" |}.

(** The success envelope of the Catalog-Aware action. *)
Definition success_envelope (processedImageBase64 originalName : string) : Json :=
  JObject [("success", JBool true);
           ("processedImageBase64", JString processedImageBase64);
           ("originalName", JString originalName)].

(** Reading a decimal [Content-Length] back. *)
Definition parse_length (s : string) : option nat :=
  option_map Nat.of_uint (NilZero.uint_of_string s).

(** The value of a header, [None] when it is not set. *)
Fixpoint header (name : string) (hs : list (string * string)) : option string :=
  match hs with
  | [] => None
  | (k, v) :: rest => if String.eqb k name then Some v else header name rest
  end.

(** No usable image in the form, as each action checks it: the Direct-Upload
    action looks at [image] only; the Catalog-Aware action also takes a file
    of no bytes for no file, and looks at [imageUrl]. *)
Definition no_image (h : Handler) (fd : FormData) : Prop :=
  match h with
  | Direct => absent_or_blank (FormData_get "image" fd)
  | Catalog =>
      (absent_or_blank (FormData_get "image" fd) \/ empty_file (FormData_get "image" fd))
      /\ absent_or_blank (FormData_get "imageUrl" fd)
  end.

(** The form gets past validation and as far as the credential check. *)
Definition accepted (h : Handler) (fd : FormData) : Prop :=
  match h with
  | Direct => exists f, FormData_get "image" fd = Some (EntryFile f)
  | Catalog =>
      truthy (FormData_get "imageUrl" fd) = true
      \/ (truthy (FormData_get "image" fd) = true
          /\ size_is_zero (FormData_get "image" fd) = false)
  end.

(** The faults that are raised outside the [try] block of an action. *)
Definition raised_outside_try (h : Handler) (w : World) (e : JsValue) : Prop :=
  match h with
  | Direct =>
      authenticate_public_appProxy w = Throws e
      \/ (exists s, authenticate_public_appProxy w = Returns (Some s)
                    /\ request_formData w = Throws e)
      \/ (exists s fd c text,
             authenticate_public_appProxy w = Returns (Some s)
             /\ request_formData w = Returns fd
             /\ FormData_get "image" fd = Some (EntryString (String c text))
             /\ e = JsError "imageFile.arrayBuffer is not a function")
  | Catalog =>
      authenticate_admin w = Throws e
      \/ (exists s, authenticate_admin w = Returns s /\ request_formData w = Throws e)
  end.

(* ===================================================================== *)
(** ** Sample requests *)
(* ===================================================================== *)

Definition session0 : Session := {| shop := "demo.myshopify.com" |}.

Definition cat_png : File :=
  {| file_name := "cat.png"; file_type := "image/png";
     file_bytes := [x89; x50; x4e; x47] |}.

(** A named file of no bytes. *)
Definition blank_png : File :=
  {| file_name := "blank.png"; file_type := "image/png"; file_bytes := [] |}.

(** What a browser submits for a file input with nothing selected. *)
Definition unselected : File :=
  {| file_name := ""; file_type := "application/octet-stream"; file_bytes := [] |}.

(** A file with content and an empty name. *)
Definition nameless : File :=
  {| file_name := ""; file_type := "image/png"; file_bytes := [x89; x50] |}.

Definition store_url : string := "https://store/img.jpg".

Definition login_redirect : Response :=
  {| status := 302; headers := [("Location", "/auth/login")]; body := BodyText "" |}.

(** Provider stubs. *)
Definition answers {O : Type} (text : string) : O -> Outcome RemoveBgResult :=
  fun _ => Returns {| r_base64img := text |}.

Definition fails {O : Type} (e : JsValue) : O -> Outcome RemoveBgResult :=
  fun _ => Throws e.

(** A request with a valid session whose body parses to [fd]. *)
Definition serving (fd : FormData) (key : option string)
  (by_payload : Base64Options -> Outcome RemoveBgResult)
  (by_url : UrlOptions -> Outcome RemoveBgResult) : World :=
  {| authenticate_public_appProxy := Returns (Some session0);
     authenticate_admin := Returns session0;
     request_formData := Returns fd;
     REMOVE_BG_API_KEY := key;
     import_remove_bg := Returns tt;
     removeBackgroundFromImageBase64 := by_payload;
     removeBackgroundFromImageUrl := by_url |}.

Definition w_upload : World :=
  serving [("image", EntryFile cat_png)] (Some "key") (answers "TWFu") (answers "TWFu").

Definition w_quota : World :=
  serving [("image", EntryFile cat_png)] (Some "key")
    (fails (JsError "quota exceeded")) (fails (JsError "quota exceeded")).

Definition w_no_fields : World :=
  serving [] (Some "key") (answers "TWFu") (answers "TWFu").

Definition w_unselected_upload : World :=
  serving [("image", EntryFile unselected)] (Some "key") (answers "TWFu") (answers "TWFu").

Definition w_unconfigured : World :=
  serving [("image", EntryFile cat_png)] None (answers "TWFu") (answers "TWFu").

Definition w_file_and_url : World :=
  serving [("image", EntryFile cat_png); ("imageUrl", EntryString store_url)]
    (Some "key") (answers "TWFu") (answers "TWFu").

Definition w_blank_and_url : World :=
  serving [("image", EntryFile blank_png); ("imageUrl", EntryString store_url)]
    (Some "key") (answers "TWFu") (answers "TWFu").

Definition w_unselected_and_url : World :=
  serving [("image", EntryFile unselected); ("imageUrl", EntryString store_url)]
    (Some "key") (answers "TWFu") (answers "TWFu").

Definition w_nameless : World :=
  serving [("image", EntryFile nameless)] (Some "key") (answers "TWFu") (answers "TWFu").

Definition w_url_only : World :=
  serving [("imageUrl", EntryString store_url)] (Some "key")
    (answers "TWFu") (answers "TWFu").

(** No session: the app-proxy entry point answers without one, the admin
    entry point throws a redirect to the login page. *)
Definition w_anonymous : World :=
  {| authenticate_public_appProxy := Returns None;
     authenticate_admin := Throws (JsResponse login_redirect);
     request_formData := Returns [];
     REMOVE_BG_API_KEY := Some "key";
     import_remove_bg := Returns tt;
     removeBackgroundFromImageBase64 := answers "TWFu";
     removeBackgroundFromImageUrl := answers "TWFu" |}.


(* ===================================================================== *)
(** ** The loader of the index route *)
(* ===================================================================== *)

Module Loader.

(** [images.edges[i].node] of the GraphQL answer. *)
Record ImageNode := { url : string; altText : option string }.

Record ImageEdge := { image_node : ImageNode }.

(** [edge.node]: [id], [title] and [images.edges]. *)
Record ProductNode :=
  { product_id : string; product_title : string; images_edges : list ImageEdge }.

Record ProductEdge := { node : ProductNode }.

(** The decoded body [{ data: { products: { edges } } }]; every level may
    be missing, which is what the optional chaining of the source reads. *)
Record ProductConnection := { edges : option (list ProductEdge) }.

Record GraphqlData := { data_products : option ProductConnection }.

Record GraphqlBody := { body_data : option GraphqlData }.

(** The answer of [admin.graphql]; [response.json()] decodes it or rejects. *)
Record GraphqlResponse := { response_json : Outcome GraphqlBody }.

(** The [admin] object of [authenticate.admin]: the one query of the loader,
    as a function of its variable [first]. *)
Record AdminApi := { graphql : nat -> Outcome GraphqlResponse }.

(** An entry of the list before the filter: [imageUrl] may still be [null]. *)
Record ProcessedProduct :=
  { p_id : string; p_title : string; p_imageUrl : option string; p_imageAlt : string }.

(** [await]: go on with the value, or stop with what was thrown. *)
Definition and_then {A B} (o : Outcome A) (k : A -> Outcome B) : Outcome B :=
  match o with
  | Returns a => k a
  | Throws e => Throws e
  end.

(** [data.data?.products?.edges || []] *)
Definition rawProducts (data : GraphqlBody) : list ProductEdge :=
  match body_data data with
  | Some d =>
      match data_products d with
      | Some c =>
          match edges c with
          | Some es => es
          | None => []
          end
      | None => []
      end
  | None => []
  end.

(** [node.images.edges[0]?.node] *)
Definition imageNode (n : ProductNode) : option ImageNode :=
  match images_edges n with
  | e :: _ => Some (image_node e)
  | [] => None
  end.

(** [imageNode?.url || null] *)
Definition imageUrl_of (i : option ImageNode) : option string :=
  match i with
  | Some img => if truthy_string (url img) then Some (url img) else None
  | None => None
  end.

(** [imageNode?.altText || node.title] *)
Definition imageAlt_of (i : option ImageNode) (title : string) : string :=
  match i with
  | Some img =>
      match altText img with
      | Some alt => if truthy_string alt then alt else title
      | None => title
      end
  | None => title
  end.

(** The callback of [rawProducts.map]. *)
Definition to_product (edge : ProductEdge) : ProcessedProduct :=
  let n := node edge in
  let i := imageNode n in
  {| p_id := product_id n;
     p_title := product_title n;
     p_imageUrl := imageUrl_of i;
     p_imageAlt := imageAlt_of i (product_title n) |}.

(** The callback of [.filter]: [p.imageUrl !== null]. *)
Definition has_imageUrl (p : ProcessedProduct) : bool :=
  match p_imageUrl p with
  | Some _ => true
  | None => false
  end.

Definition products_of (data : GraphqlBody) : list ProcessedProduct :=
  filter has_imageUrl (map to_product (rawProducts data)).

(** The loader: authenticate, query the first 15 products, decode, shape.
    Nothing is caught. *)
Definition loader (authenticate_admin : Outcome AdminApi) : Outcome (list ProcessedProduct) :=
  and_then authenticate_admin (fun admin =>
  and_then (graphql admin 15) (fun response =>
  and_then (response_json response) (fun data =>
  Returns (products_of data)))).

(** The first image of a product has a usable address. *)
Definition first_image_usable (edge : ProductEdge) : bool :=
  match images_edges (node edge) with
  | e :: _ => truthy_string (url (image_node e))
  | [] => false
  end.

(** A decoded answer that lists [es], and an API that gives it. *)
Definition body_of (es : list ProductEdge) : GraphqlBody :=
  {| body_data := Some {| data_products := Some {| edges := Some es |} |} |}.

Definition response_of (es : list ProductEdge) : GraphqlResponse :=
  {| response_json := Returns (body_of es) |}.

Definition api_answering (es : list ProductEdge) : AdminApi :=
  {| graphql := fun _ => Returns (response_of es) |}.

(** Two sample products: one without image, one with. *)
Definition mug : ProductEdge :=
  {| node := {| product_id := "gid://shopify/Product/1";
                product_title := "Mug";
                images_edges := [] |} |}.

Definition cap : ProductEdge :=
  {| node := {| product_id := "gid://shopify/Product/2";
                product_title := "Cap";
                images_edges :=
                  [ {| image_node :=
                         {| url := "https://store/img.jpg"; altText := None |} |} ] |} |}.

Definition cap_product : ProcessedProduct :=
  {| p_id := "gid://shopify/Product/2"; p_title := "Cap";
     p_imageUrl := Some "https://store/img.jpg"; p_imageAlt := "Cap" |}.

End Loader.

(* ===================================================================== *)
(** ** The page component: selection state and event handlers *)
(* ===================================================================== *)

Module Index.

Inductive FetcherState := Idle | Loading | Submitting.

(** What the component reads of [useFetcher()]. *)
Record Fetcher :=
  { fetcher_state : FetcherState;
    fetcher_formMethod : option string;
    fetcher_data : option Json }.

(** The four [useState] cells. *)
Record State :=
  { selectedFile : option File;
    selectedImageUrl : option string;
    previewUrl : option string;
    isDragging : bool }.

Definition initial : State :=
  {| selectedFile := None; selectedImageUrl := None;
     previewUrl := None; isDragging := false |}.

(** What a handler does besides setting state. *)
Inductive Effect :=
| PreventDefault
| StopPropagation
| ResetFileInput
| ToastShow (message : option Json) (isError : bool)
| Submit (formData : FormData).

(** [["loading", "submitting"].includes(fetcher.state)
      && fetcher.formMethod === "POST"] *)
Definition isLoading (f : Fetcher) : bool :=
  match fetcher_state f with
  | Loading | Submitting => true
  | Idle => false
  end
  && match fetcher_formMethod f with
     | Some m => String.eqb m "POST"
     | None => false
     end.

(** Truthiness of the [selectedImageUrl] cell. *)
Definition truthy_url (u : option string) : bool :=
  match u with
  | Some s => truthy_string s
  | None => false
  end.

(** Truthiness of the [selectedFile] cell: a [File] object is truthy. *)
Definition truthy_file (f : option File) : bool :=
  match f with
  | Some _ => true
  | None => false
  end.

(** The [disabled] attribute of the button:
    [(!selectedFile && !selectedImageUrl) || isLoading]. *)
Definition button_disabled (st : State) (f : Fetcher) : bool :=
  (negb (truthy_file (selectedFile st)) && negb (truthy_url (selectedImageUrl st)))
  || isLoading f.

Section Handlers.

(** [URL.createObjectURL], the browser's. *)
Variable createObjectURL : File -> string.

Definition processFile (st : State) (file : File) : State :=
  {| selectedFile := Some file;
     selectedImageUrl := None;
     previewUrl := Some (createObjectURL file);
     isDragging := isDragging st |}.

(** [e.target.files?.[0]], then [processFile] when there is one. *)
Definition handleFileChange (st : State) (files : list File) : State * list Effect :=
  match files with
  | file :: _ => (processFile st file, [])
  | [] => (st, [])
  end.

Definition setIsDragging (st : State) (b : bool) : State :=
  {| selectedFile := selectedFile st;
     selectedImageUrl := selectedImageUrl st;
     previewUrl := previewUrl st;
     isDragging := b |}.

Definition handleDragOver (st : State) : State * list Effect :=
  (setIsDragging st true, [PreventDefault]).

Definition handleDragLeave (st : State) : State * list Effect :=
  (setIsDragging st false, [PreventDefault]).

(** [droppedFile.type.startsWith("image/")] decides between taking the
    first dropped file and an error toast. *)
Definition handleDrop (st : State) (files : list File) : State * list Effect :=
  let st' := setIsDragging st false in
  match files with
  | droppedFile :: _ =>
      if String.prefix "image/" (file_type droppedFile) then
        (processFile st' droppedFile, [PreventDefault])
      else
        (st', [PreventDefault;
               ToastShow (Some (JString "Please drop a valid image file")) true])
  | [] => (st', [PreventDefault])
  end.

(** The click of the button: nothing when nothing is selected, otherwise
    one form with the file, or else with the address. *)
Definition handleRemoveBg (st : State) : list Effect :=
  if negb (truthy_file (selectedFile st)) && negb (truthy_url (selectedImageUrl st))
  then []
  else
    match selectedFile st with
    | Some file => [Submit [("image", EntryFile file)]]
    | None =>
        match selectedImageUrl st with
        | Some u =>
            if truthy_string u then [Submit [("imageUrl", EntryString u)]]
            else [Submit []]
        | None => [Submit []]
        end
    end.

(** [clearSelection(e?)]; [with_event] tells whether a click event came. *)
Definition clearSelection (st : State) (with_event : bool) : State * list Effect :=
  ({| selectedFile := None; selectedImageUrl := None;
      previewUrl := None; isDragging := isDragging st |},
   (if with_event then [PreventDefault; StopPropagation] else [])
   ++ [ResetFileInput]).

Definition selectStoreProduct (st : State) (u : string) : State * list Effect :=
  let (st', effects) := clearSelection st false in
  ({| selectedFile := selectedFile st';
      selectedImageUrl := Some u;
      previewUrl := Some u;
      isDragging := isDragging st' |},
   effects).

(** What the user can do to the page. *)
Inductive UiEvent :=
| FileChange (files : list File)
| DragOver
| DragLeave
| Drop (files : list File)
| SelectStoreProduct (u : string)
| ClearSelection.

Definition step (st : State) (ev : UiEvent) : State * list Effect :=
  match ev with
  | FileChange files => handleFileChange st files
  | DragOver => handleDragOver st
  | DragLeave => handleDragLeave st
  | Drop files => handleDrop st files
  | SelectStoreProduct u => selectStoreProduct st u
  | ClearSelection => clearSelection st true
  end.

(** The state after a sequence of user events. *)
Definition after (evs : list UiEvent) : State :=
  fold_left (fun st ev => fst (step st ev)) evs initial.

(** The selection is consistent: never a file and an address together, and
    the preview shows the selected file's object URL, or else whatever
    address is selected. *)
Definition consistent (st : State) : Prop :=
  match selectedFile st with
  | Some file =>
      selectedImageUrl st = None /\ previewUrl st = Some (createObjectURL file)
  | None => previewUrl st = selectedImageUrl st
  end.

End Handlers.

(** Truthiness of a decoded value. *)
Definition truthy_json (j : Json) : bool :=
  match j with
  | JBool b => b
  | JString s => truthy_string s
  | JObject _ => true
  end.

(** [key in value]: a type error on anything but an object. *)
Definition has_key (key : string) (j : Json) : Outcome bool :=
  match j with
  | JObject fields => Returns (existsb (fun kv => String.eqb (fst kv) key) fields)
  | _ => Throws (JsError "Cannot use 'in' operator to search for a key in a primitive")
  end.

(** [value.key], [None] for [undefined]. *)
Fixpoint field_of (key : string) (fields : list (string * Json)) : option Json :=
  match fields with
  | [] => None
  | (k, v) :: rest => if String.eqb k key then Some v else field_of key rest
  end.

Definition property (key : string) (j : Json) : option Json :=
  match j with
  | JObject fields => field_of key fields
  | _ => None
  end.

(** The body of the [useEffect] on [fetcher.data]. *)
Definition toast_effect (f : Fetcher) : Outcome (list Effect) :=
  match fetcher_data f with
  | None => Returns []
  | Some d =>
      if truthy_json d then
        Loader.and_then (has_key "error" d) (fun has_error =>
          if has_error then Returns [ToastShow (property "error" d) true]
          else
            Loader.and_then (has_key "success" d) (fun has_success =>
              if has_success
              then Returns [ToastShow (Some (JString "Background removed successfully!")) false]
              else Returns []))
      else Returns []
  end.

(** What the router hands to [fetcher.data] for a value the action
    returned: a plain object as it is, a JSON response decoded. *)
Definition data_of_result (r : ActionResult) : option Json :=
  match r with
  | ResultData d => Some d
  | ResultResponse resp =>
      match body resp with
      | BodyJson j => Some j
      | _ => None
      end
  end.

End Index.

(* ===================================================================== *)
(** ** Further vocabulary *)
(* ===================================================================== *)

(** The action handed back a processed image: the binary response of the
    Direct-Upload action (status 200) or the plain object of the
    Catalog-Aware action. *)
Definition is_success (res : ActionResult) : bool :=
  match res with
  | ResultData _ => true
  | ResultResponse r => Nat.eqb (status r) 200
  end.

(** The [image] field is not a file with at least one byte. *)
Definition no_file_bytes (fd : FormData) : Prop :=
  forall f, FormData_get "image" fd = Some (EntryFile f) -> file_bytes f = [].

(** The guard of the Catalog-Aware validation lets the form through. *)
Definition catalog_guard_passes (fd : FormData) : Prop :=
  (negb (truthy (FormData_get "image" fd)) || size_is_zero (FormData_get "image" fd))
  && negb (truthy (FormData_get "imageUrl" fd)) = false.

(** The message of the [catch] block of each action. *)
Definition catch_message (h : Handler) (e : JsValue) : string :=
  match h with
  | Direct => "Failed to process image"
  | Catalog => String.append "Failed to process image: " (CatalogAware.errorMessage e)
  end.

(* ===================================================================== *)
(** ** The actions when reading a file can fail *)
(* ===================================================================== *)

(** [file.arrayBuffer()] is a promise and may reject.  The actions are read
    here once more with the answer of every such read as a parameter
    [read]; with a read that always resolves to the file's bytes these are
    the actions above.  The Direct-Upload action reads before its [try]
    block, the Catalog-Aware action inside it. *)
Module FileRead.

Section Read.

Variable read : File -> Outcome (list byte).

(** [imageFile.arrayBuffer()] *)
Definition arrayBuffer (v : option FormDataEntryValue) : Async (list byte) :=
  match v with
  | Some (EntryFile f) => call (CallArrayBuffer f) (read f)
  | Some (EntryString _) => throw (JsError "imageFile.arrayBuffer is not a function")
  | None => throw (JsError "Cannot read properties of null (reading 'arrayBuffer')")
  end.

Definition direct_action (w : World) : Async ActionResult :=
  session <- call CallAppProxy (authenticate_public_appProxy w) ;;
  match session with
  | None => ret (ResultResponse (Response_text "Unauthorized" 401))
  | Some _ =>
      formData <- call CallFormData (request_formData w) ;;
      let imageFile := FormData_get "image" formData in
      if negb (truthy imageFile) then
        ret (ResultResponse (Response_json (envelope "No image provided") 400))
      else
        buffer <- arrayBuffer imageFile ;;
        try_catch (DirectUpload.guarded w buffer) DirectUpload.handler
  end.

Definition read_base64img (imageFile : option FormDataEntryValue) : Async string :=
  match imageFile with
  | Some (EntryFile f) =>
      if Nat.ltb 0 (file_size f) then
        buffer <- arrayBuffer imageFile ;;
        ret (Base64.encode buffer)
      else ret ""
  | _ => ret ""
  end.

Definition catalog_guarded (w : World) (imageFile imageUrl : option FormDataEntryValue)
  : Async ActionResult :=
  match REMOVE_BG_API_KEY w with
  | None | Some EmptyString =>
      ret (ResultResponse
             (Response_json
                (envelope
                   "Background removal service not configured (missing REMOVE_BG_API_KEY).")
                500))
  | Some apiKey =>
      _ <- call CallImport (import_remove_bg w) ;;
      base64img <- read_base64img imageFile ;;
      result <-
        (if truthy_string base64img then
           let options :=
             {| b_base64img := base64img; b_apiKey := apiKey;
                b_size := "regular"; b_type := "auto" |} in
           call (CallRemoveBase64 options) (removeBackgroundFromImageBase64 w options)
         else
           let options :=
             {| u_url := imageUrl; u_apiKey := apiKey;
                u_size := "regular"; u_type := "auto" |} in
           call (CallRemoveUrl options) (removeBackgroundFromImageUrl w options)) ;;
      ret (ResultData
             (JObject
                [("success", JBool true);
                 ("processedImageBase64", JString (r_base64img result));
                 ("originalName",
                  JString (CatalogAware.originalName imageFile imageUrl))]))
  end.

Definition catalog_action (w : World) : Async ActionResult :=
  _ <- call CallAdmin (authenticate_admin w) ;;
  formData <- call CallFormData (request_formData w) ;;
  let imageFile := FormData_get "image" formData in
  let imageUrl := FormData_get "imageUrl" formData in
  if (negb (truthy imageFile) || size_is_zero imageFile) && negb (truthy imageUrl) then
    ret (ResultResponse (Response_json (envelope "No image provided") 400))
  else
    try_catch (catalog_guarded w imageFile imageUrl) CatalogAware.handler.

Definition run (h : Handler) (w : World) : Async ActionResult :=
  match h with
  | Direct => direct_action w
  | Catalog => catalog_action w
  end.

(** The faults raised before the [try] block of an action: those of the
    authentication collaborator and of the form-data parser and, in the
    Direct-Upload action only, those of reading the [image] field, a failed
    read of the file or the type error on a field that holds text. *)
Definition raised_outside_try (h : Handler) (w : World) (e : JsValue) : Prop :=
  match h with
  | Direct =>
      authenticate_public_appProxy w = Throws e
      \/ (exists s, authenticate_public_appProxy w = Returns (Some s)
                    /\ request_formData w = Throws e)
      \/ (exists s fd c text,
             authenticate_public_appProxy w = Returns (Some s)
             /\ request_formData w = Returns fd
             /\ FormData_get "image" fd = Some (EntryString (String c text))
             /\ e = JsError "imageFile.arrayBuffer is not a function")
      \/ (exists s fd f,
             authenticate_public_appProxy w = Returns (Some s)
             /\ request_formData w = Returns fd
             /\ FormData_get "image" fd = Some (EntryFile f)
             /\ read f = Throws e)
  | Catalog =>
      authenticate_admin w = Throws e
      \/ (exists s, authenticate_admin w = Returns s /\ request_formData w = Throws e)
  end.

End Read.

(** The read that always resolves to the file's bytes. *)
Definition resolves : File -> Outcome (list byte) := fun f => Returns (file_bytes f).


End FileRead.

(* ===================================================================== *)
(** ** Facts about the base64 codec *)
(* ===================================================================== *)

Section Base64Facts.

Import Base64.
Local Open Scope N_scope.

Local Ltac euclid := zify; Z.to_euclidean_division_equations; lia.

(** Every six-bit group is in the table below. *)
Lemma sextet_enumerated (n : N) :
  n < 64 -> In n (map N.of_nat (seq 0 64)).
Proof.
  intros Hn. apply in_map_iff. exists (N.to_nat n). split.
  - apply N2Nat.id.
  - apply in_seq. lia.
Qed.

Lemma digit_table_checked :
  forallb
    (fun n => match undigit (digit n) with
              | Some m => N.eqb m n
              | None => false
              end && negb (Ascii.eqb (digit n) pad))
    (map N.of_nat (seq 0 64)) = true.
Proof. vm_compute. reflexivity. Qed.

Lemma undigit_digit (n : N) :
  n < 64 -> undigit (digit n) = Some n /\ Ascii.eqb (digit n) pad = false.
Proof.
  intros Hn.
  pose proof digit_table_checked as Hall.
  rewrite forallb_forall in Hall.
  specialize (Hall n (sextet_enumerated n Hn)).
  apply andb_true_iff in Hall. destruct Hall as [Hu Hp].
  split.
  - destruct (undigit (digit n)) as [m|]; [|discriminate].
    apply N.eqb_eq in Hu. now subst.
  - now apply negb_true_iff.
Qed.

Lemma sextets_digit (n : N) (rest : list ascii) :
  n < 64 -> sextets (digit n :: rest) = n :: sextets rest.
Proof.
  intros Hn. destruct (undigit_digit n Hn) as [Hu Hp].
  cbn [sextets]. now rewrite Hp, Hu.
Qed.

Lemma sextets_pad (rest : list ascii) : sextets (pad :: rest) = [].
Proof. reflexivity. Qed.

Lemma byte_of_N_to_N (b : byte) (n : N) :
  n = Byte.to_N b -> byte_of_N n = b.
Proof.
  intros ->. unfold byte_of_N.
  pose proof (Byte.to_N_bounded b) as Hb.
  rewrite N.mod_small by lia.
  now rewrite Byte.of_to_N.
Qed.

(** Induction three bytes at a time, the step of the encoder. *)
Lemma bytes_ind3 (P : list byte -> Prop) :
  P [] ->
  (forall a, P [a]) ->
  (forall a b, P [a; b]) ->
  (forall a b c rest, P rest -> P (a :: b :: c :: rest)) ->
  forall bs, P bs.
Proof.
  intros H0 H1 H2 H3.
  fix IH 1.
  intros [|a [|b [|c rest]]];
    [apply H0 | apply H1 | apply H2 | apply H3, IH].
Qed.

Lemma decode_sextets_encode_bytes (bs : list byte) :
  decode_sextets (sextets (encode_bytes bs)) = bs.
Proof.
  induction bs as [|a|a b|a b c rest IH] using bytes_ind3.
  - reflexivity.
  - pose proof (Byte.to_N_bounded a).
    cbn [encode_bytes].
    rewrite !sextets_digit, sextets_pad by euclid.
    cbn [decode_sextets]. f_equal.
    apply byte_of_N_to_N. euclid.
  - pose proof (Byte.to_N_bounded a). pose proof (Byte.to_N_bounded b).
    cbn [encode_bytes].
    rewrite !sextets_digit, sextets_pad by euclid.
    cbn [decode_sextets].
    repeat f_equal; apply byte_of_N_to_N; euclid.
  - pose proof (Byte.to_N_bounded a). pose proof (Byte.to_N_bounded b).
    pose proof (Byte.to_N_bounded c).
    cbn [encode_bytes].
    rewrite !sextets_digit by euclid.
    cbn [decode_sextets]. rewrite IH.
    repeat (f_equal; try (apply byte_of_N_to_N; euclid)).
Qed.

End Base64Facts.

Example encode_Man : Base64.encode [x4d; x61; x6e] = "TWFu".
Proof. reflexivity. Qed.

Example encode_Ma : Base64.encode [x4d; x61] = "TWE=".
Proof. reflexivity. Qed.

Example decode_TQ : Base64.decode "TQ==" = [x4d].
Proof. reflexivity. Qed.

(** C8. Encoding any byte sequence to base64 text with the encoder of the
    request path and decoding that text with the decoder of the response
    path gives the same bytes back, the empty sequence included. *)
Theorem base64_roundtrip (bytes : list byte) :
  Base64.decode (Base64.encode bytes) = bytes.
Proof.
  unfold Base64.decode, Base64.encode.
  rewrite list_ascii_of_string_of_list_ascii.
  apply decode_sextets_encode_bytes.
Qed.

Lemma encode_nil : Base64.encode [] = "".
Proof. reflexivity. Qed.

(** Only the empty buffer encodes to the empty (falsy) text. *)
Lemma encode_truthy (bytes : list byte) :
  bytes <> [] -> truthy_string (Base64.encode bytes) = true.
Proof.
  destruct bytes as [|a [|b [|c rest]]]; [congruence | reflexivity ..].
Qed.

Lemma parse_length_toString (n : nat) : parse_length (toString n) = Some n.
Proof.
  unfold parse_length, toString.
  assert (Hn : Nat.to_uint n <> Decimal.Nil).
  { rewrite <- (DecimalNat.Unsigned.of_to n) at 1.
    rewrite DecimalNat.Unsigned.to_of. apply DecimalFacts.unorm_nonnil. }
  rewrite (NilZero.usu _ Hn). cbn [option_map].
  now rewrite DecimalNat.Unsigned.of_to.
Qed.

(* ===================================================================== *)
(** ** The actions, path by path *)
(* ===================================================================== *)

Arguments Base64.encode : simpl never.
Arguments Base64.decode : simpl never.
Arguments toString : simpl never.

(** Unfolds an action down to the monad's pairs. *)
Ltac unfold_action :=
  unfold run, DirectUpload.action, CatalogAware.action,
    DirectUpload.guarded, CatalogAware.guarded,
    DirectUpload.handler, CatalogAware.handler,
    CatalogAware.read_base64img, arrayBuffer,
    base64_options, url_options, success_envelope in *.

(** Evaluates the monad once the collaborators' answers are known. *)
Ltac eval_async :=
  cbn [bind try_catch call emit ret throw outcome trace fst snd List.app
       truthy truthy_string size_is_zero negb orb andb
       authenticate_public_appProxy authenticate_admin request_formData
       REMOVE_BG_API_KEY import_remove_bg
       removeBackgroundFromImageBase64 removeBackgroundFromImageUrl] in *.

(** C6. A Direct-Upload request with a valid session, a non-empty image
    file, a configured credential and a provider that answers gets status
    200 with a binary body equal to the base64 decoding of the provider's
    text, content type image/png, and a Content-Length that is the decimal
    length of that body. *)
Theorem direct_upload_success
  (w : World) (s : Session) (fd : FormData) (f : File) (k : string)
  (r : RemoveBgResult) :
  authenticate_public_appProxy w = Returns (Some s) ->
  request_formData w = Returns fd ->
  FormData_get "image" fd = Some (EntryFile f) ->
  file_bytes f <> [] ->
  REMOVE_BG_API_KEY w = Some k -> k <> "" ->
  import_remove_bg w = Returns tt ->
  removeBackgroundFromImageBase64 w (base64_options (file_bytes f) k) = Returns r ->
  exists resp,
    outcome (DirectUpload.action w) = Returns (ResultResponse resp)
    /\ status resp = 200
    /\ body resp = BodyBuffer (Base64.decode (r_base64img r))
    /\ header "Content-Type" (headers resp) = Some "image/png"
    /\ option_map parse_length (header "Content-Length" (headers resp))
       = Some (Some (List.length (Base64.decode (r_base64img r)))).
Proof.
  intros Hauth Hform Himage _ Hkey Hk Himport Hanswer.
  unfold_action.
  rewrite Hauth. eval_async. rewrite Hform. eval_async.
  rewrite Himage. eval_async.
  rewrite Hkey. destruct k as [|c k']; [congruence|].
  rewrite Himport. eval_async. rewrite Hanswer. eval_async.
  eexists. split; [reflexivity|].
  cbn [status body headers Response_buffer header String.eqb].
  repeat split.
  cbn. now rewrite parse_length_toString.
Qed.

(** Case analysis on whatever the action inspects next. *)
Ltac innermost x :=
  lazymatch x with
  | context [match ?y with _ => _ end] => innermost y
  | _ => destruct x eqn:?
  end.

Ltac case_step :=
  match goal with
  | |- context [match ?x with _ => _ end] => innermost x
  | H : context [match ?x with _ => _ end] |- _ => innermost x
  end; eval_async; try congruence.

Ltac in_trace :=
  repeat match goal with
  | H : _ \/ _ |- _ => destruct H
  | H : In _ [] |- _ => destruct H
  | H : In _ (_ :: _) |- _ => destruct H as [H | H]; [try discriminate H|]
  | H : _ /\ _ |- _ => destruct H
  | H : exists _, _ |- _ => destruct H
  end.

Ltac same_call :=
  match goal with
  | H : CallRemoveBase64 _ = CallRemoveBase64 _ |- _ => injection H as <-
  | H : CallRemoveUrl _ = CallRemoveUrl _ |- _ => injection H as <-
  end.

Lemma direct_gateway_raised (w : World) (e : JsValue) :
  gateway_raised w (trace (DirectUpload.action w)) e ->
  outcome (DirectUpload.action w)
  = Returns (ResultResponse (Response_json (envelope "Failed to process image") 500)).
Proof.
  unfold gateway_raised. intros H. unfold_action. destruct w. eval_async.
  repeat case_step; in_trace; try same_call; congruence.
Qed.

Lemma catalog_gateway_raised (w : World) (e : JsValue) :
  gateway_raised w (trace (CatalogAware.action w)) e ->
  outcome (CatalogAware.action w)
  = Returns (ResultResponse
               (Response_json
                  (envelope (String.append "Failed to process image: "
                                           (CatalogAware.errorMessage e)))
                  500)).
Proof.
  unfold gateway_raised. intros H. unfold_action. destruct w. eval_async.
  repeat case_step; in_trace; try same_call; congruence.
Qed.

(** With a provider that sends back the text it was given, the
    Direct-Upload action answers the very bytes that were uploaded: the
    encoding of the request path and the decoding of the response path
    cancel. *)
Lemma direct_upload_echo
  (w : World) (s : Session) (fd : FormData) (f : File) (k : string) :
  authenticate_public_appProxy w = Returns (Some s) ->
  request_formData w = Returns fd ->
  FormData_get "image" fd = Some (EntryFile f) ->
  REMOVE_BG_API_KEY w = Some k -> k <> "" ->
  import_remove_bg w = Returns tt ->
  (forall o, removeBackgroundFromImageBase64 w o
             = Returns {| r_base64img := b_base64img o |}) ->
  exists resp,
    outcome (DirectUpload.action w) = Returns (ResultResponse resp)
    /\ body resp = BodyBuffer (file_bytes f).
Proof.
  intros Hauth Hform Himage Hkey Hk Himport Hecho.
  unfold_action.
  rewrite Hauth. eval_async. rewrite Hform. eval_async.
  rewrite Himage. eval_async.
  rewrite Hkey. destruct k as [|c k']; [congruence|].
  rewrite Himport. eval_async. rewrite Hecho. eval_async.
  eexists. split; [reflexivity|].
  cbn [body Response_buffer r_base64img b_base64img].
  unfold Base64.decode, Base64.encode.
  now rewrite list_ascii_of_string_of_list_ascii, decode_sextets_encode_bytes.
Qed.

(** C6, at a sample request. *)
Lemma direct_upload_success_witness :
  exists resp,
    outcome (DirectUpload.action w_upload) = Returns (ResultResponse resp)
    /\ status resp = 200
    /\ body resp = BodyBuffer [x4d; x61; x6e]
    /\ header "Content-Type" (headers resp) = Some "image/png"
    /\ option_map parse_length (header "Content-Length" (headers resp))
       = Some (Some 3).
Proof.
  apply (direct_upload_success w_upload session0 [("image", EntryFile cat_png)]
           cat_png "key" {| r_base64img := "TWFu" |});
    try reflexivity; discriminate.
Defined.

(** C1 (as amended). Whenever a provider call of a request throws, the
    action answers status 500 with a one-field error envelope.  The
    Catalog-Aware action appends the message of the thrown [Error], or
    "Unknown error" when the thrown value is no [Error]; the Direct-Upload
    action answers the fixed text "Failed to process image".  The envelope
    carries that text only, never the thrown value. *)
Theorem gateway_failure_envelope (h : Handler) (w : World) (e : JsValue) :
  gateway_raised w (trace (run h w)) e ->
  outcome (run h w)
  = Returns
      (ResultResponse
         (Response_json
            (envelope
               match h, e with
               | Direct, _ => "Failed to process image"
               | Catalog, JsError message =>
                   String.append "Failed to process image: " message
               | Catalog, _ => "Failed to process image: Unknown error"
               end)
            500)).
Proof.
  destruct h; intros H.
  - now apply direct_gateway_raised with (e := e).
  - cbn [run]. rewrite (catalog_gateway_raised w e H). now destruct e.
Qed.

Lemma gateway_failure_envelope_witness :
  outcome (run Catalog w_quota)
  = Returns
      (ResultResponse
         (Response_json (envelope "Failed to process image: quota exceeded") 500)).
Proof.
  apply (gateway_failure_envelope Catalog w_quota (JsError "quota exceeded")).
  left. eexists. split; [|reflexivity]. vm_compute. tauto.
Defined.

(** C1, refuted as stated: the provider throws an [Error] with a message
    during a Direct-Upload request, and the envelope does not carry it. *)
Lemma gateway_failure_direct_drops_message :
  gateway_raised w_quota (trace (run Direct w_quota)) (JsError "quota exceeded")
  /\ outcome (run Direct w_quota)
     = Returns (ResultResponse
                  (Response_json (envelope "Failed to process image") 500))
  /\ outcome (run Direct w_quota)
     <> Returns (ResultResponse
                   (Response_json
                      (envelope "Failed to process image: quota exceeded") 500)).
Proof.
  split; [|split].
  - left. eexists. split; [|reflexivity]. vm_compute. tauto.
  - reflexivity.
  - vm_compute. discriminate.
Qed.

(** Names the answers of the collaborators after the hypotheses. *)
Ltac known_world w :=
  destruct w; unfold authenticated, unauthenticated, key_missing in *;
  eval_async; subst; eval_async.

(** Where the actions do answer "No image provided".  For a request whose
    session is valid and whose body parses, an action answers status 400
    with that message and makes no provider call: the Catalog-Aware action
    when [image] is missing, an empty string or a file of no bytes and
    [imageUrl] is missing or empty; the Direct-Upload action when [image]
    is missing or an empty string, whatever [imageUrl] holds. *)
Theorem no_image_bad_request (h : Handler) (w : World) (s : Session) (fd : FormData) :
  authenticated h w s ->
  request_formData w = Returns fd ->
  no_image h fd ->
  outcome (run h w)
  = Returns (ResultResponse (Response_json (envelope "No image provided") 400))
  /\ gateway_calls (trace (run h w)) = 0.
Proof.
  intros Hauth Hform Hnone. unfold_action.
  destruct h; known_world w; unfold no_image, absent_or_blank, empty_file in Hnone.
  - destruct Hnone as [-> | ->]; eval_async; split; reflexivity.
  - destruct Hnone as [[[-> | ->] | (f & -> & Hf)] [-> | ->]]; eval_async;
      try (unfold file_size; rewrite Hf); split; reflexivity.
Qed.

Lemma no_image_bad_request_witness :
  outcome (run Catalog w_no_fields)
  = Returns (ResultResponse (Response_json (envelope "No image provided") 400))
  /\ gateway_calls (trace (run Catalog w_no_fields)) = 0.
Proof.
  apply (no_image_bad_request Catalog w_no_fields session0 []);
    [reflexivity | reflexivity |].
  split; [left|]; left; reflexivity.
Defined.

(** C2, where the code falls short of it.  A Direct-Upload request with a
    valid session whose only field is an [image] file of no bytes, the one
    a browser submits for an unused file input: neither a non-empty image
    file nor a non-empty [imageUrl] is present, yet the action reads the
    empty file and calls the provider on the empty text, and answers with
    the provider's image instead of status 400.  On the very same request
    the Catalog-Aware action, which also tests the file's size, answers
    "No image provided" without any provider call. *)
Lemma direct_upload_empty_file_reaches_provider :
  request_formData w_unselected_upload = Returns [("image", EntryFile unselected)]
  /\ file_size unselected = 0
  /\ DirectUpload.action w_unselected_upload
     = (Returns
          (ResultResponse
             (Response_buffer [x4d; x61; x6e]
                [("Content-Type", "image/png"); ("Content-Length", "3")])),
        [CallAppProxy; CallFormData; CallArrayBuffer unselected; CallImport;
         CallRemoveBase64
           {| b_base64img := ""; b_apiKey := "key";
              b_size := "regular"; b_type := "auto" |}])
  /\ gateway_calls (trace (DirectUpload.action w_unselected_upload)) = 1
  /\ CatalogAware.action w_unselected_upload
     = (Returns (ResultResponse (Response_json (envelope "No image provided") 400)),
        [CallAdmin; CallFormData]).
Proof. repeat split. Qed.

(** Without a credential no action ever reaches the provider. *)
Lemma key_missing_no_gateway_call (h : Handler) (w : World) :
  key_missing w -> gateway_calls (trace (run h w)) = 0.
Proof.
  intros Hkey. unfold_action.
  destruct h; known_world w; destruct Hkey as [-> | ->];
    repeat case_step; reflexivity.
Qed.

(** C3 (as amended). When the provider credential is unset or empty, no
    request to either action reaches the provider.  With a valid session
    and a body that parses, the action answers its "not configured"
    envelope with status 500 exactly when the request gets as far as the
    credential check, that is when [image] holds a file for the
    Direct-Upload action and when the form passes validation for the
    Catalog-Aware action; the Direct-Upload message is "Background removal
    service not configured", the Catalog-Aware message is "Background
    removal service not configured (missing REMOVE_BG_API_KEY).". *)
Theorem missing_key_not_configured (h : Handler) (w : World) :
  key_missing w ->
  gateway_calls (trace (run h w)) = 0
  /\ forall s fd,
       authenticated h w s ->
       request_formData w = Returns fd ->
       (outcome (run h w)
        = Returns
            (ResultResponse
               (Response_json
                  (envelope
                     match h with
                     | Direct => "Background removal service not configured"
                     | Catalog =>
                         "Background removal service not configured (missing REMOVE_BG_API_KEY)."
                     end)
                  500))
        <-> accepted h fd).
Proof.
  intros Hkey. split; [now apply key_missing_no_gateway_call|].
  intros s fd Hauth Hform.
  unfold_action. destruct h; known_world w; unfold accepted.
  - destruct (FormData_get "image" fd) as [[[|c text]|f]|]; eval_async.
    + split; [discriminate | intros (f & Hf); discriminate Hf].
    + split; [discriminate | intros (f & Hf); discriminate Hf].
    + split; [intros _; now exists f | intros _].
      now destruct Hkey as [-> | ->].
    + split; [discriminate | intros (f & Hf); discriminate Hf].
  - destruct ((negb (truthy (FormData_get "image" fd))
               || size_is_zero (FormData_get "image" fd))
              && negb (truthy (FormData_get "imageUrl" fd))) eqn:Hguard.
    + split; [discriminate|].
      intros Hacc. exfalso.
      destruct Hacc as [Hu | [Hi Hz]]; [rewrite Hu in Hguard | rewrite Hi, Hz in Hguard];
        [rewrite andb_false_r in Hguard|]; discriminate Hguard.
    + split; [intros _ | intros _; now destruct Hkey as [-> | ->]].
      apply andb_false_iff in Hguard. destruct Hguard as [Hguard | Hguard].
      * apply orb_false_iff in Hguard. destruct Hguard as [Hi Hz].
        right. split; [now apply negb_false_iff | assumption].
      * left. now apply negb_false_iff.
Qed.

Lemma missing_key_not_configured_witness :
  gateway_calls (trace (run Direct w_unconfigured)) = 0
  /\ outcome (run Direct w_unconfigured)
     = Returns
         (ResultResponse
            (Response_json (envelope "Background removal service not configured") 500)).
Proof.
  destruct (missing_key_not_configured Direct w_unconfigured (or_introl eq_refl))
    as [Hnone Hmessage].
  split; [exact Hnone|].
  apply (proj2 (Hmessage session0 [("image", EntryFile cat_png)] eq_refl eq_refl)).
  exists cat_png. reflexivity.
Defined.

(** C3, refuted as stated: with the credential unset the Catalog-Aware
    action names the environment variable in its message. *)
Lemma missing_key_catalog_message :
  key_missing w_unconfigured
  /\ outcome (run Catalog w_unconfigured)
     = Returns
         (ResultResponse
            (Response_json
               (envelope
                  "Background removal service not configured (missing REMOVE_BG_API_KEY).")
               500))
  /\ outcome (run Catalog w_unconfigured)
     <> Returns
          (ResultResponse
             (Response_json
                (envelope
                   "Background removal service not configured (missing API key).")
                500)).
Proof.
  split; [left; reflexivity | split; [reflexivity | vm_compute; discriminate]].
Qed.

(** The Catalog-Aware action has no 401 of its own. *)
Lemma catalog_never_answers_401 (w : World) (r : Response) :
  outcome (CatalogAware.action w) = Returns (ResultResponse r) -> status r <> 401.
Proof.
  intros H. unfold_action. destruct w. eval_async.
  repeat case_step; injection H as <-; discriminate.
Qed.

(** C4 (as amended). When the authentication collaborator signals that there
    is no valid session, the action stops right after that call: nothing of
    the body is read and the provider is not invoked.  The Direct-Upload
    action, told there is no session, answers status 401 "Unauthorized".
    The Catalog-Aware action makes no answer of its own: the admin
    collaborator signals by throwing, and what it throws propagates. *)
Theorem unauthenticated_stops_at_once (h : Handler) (w : World) :
  unauthenticated h w ->
  trace (run h w) = [auth_event h]
  /\ gateway_calls (trace (run h w)) = 0
  /\ match h with
     | Direct =>
         outcome (run h w) = Returns (ResultResponse (Response_text "Unauthorized" 401))
     | Catalog =>
         exists e, authenticate_admin w = Throws e /\ outcome (run h w) = Throws e
     end.
Proof.
  intros Hanon. unfold_action. destruct h.
  - known_world w. repeat split.
  - destruct Hanon as [e He]. known_world w. repeat split. now exists e.
Qed.

Lemma unauthenticated_stops_at_once_witness :
  trace (run Direct w_anonymous) = [CallAppProxy]
  /\ gateway_calls (trace (run Direct w_anonymous)) = 0
  /\ outcome (run Direct w_anonymous)
     = Returns (ResultResponse (Response_text "Unauthorized" 401)).
Proof.
  apply (unauthenticated_stops_at_once Direct w_anonymous). reflexivity.
Defined.

(** C4, refuted as stated: without a valid session the Catalog-Aware action
    returns no response at all, it throws what the admin collaborator
    threw, here a redirect to the login page. *)
Lemma catalog_unauthenticated_throws :
  unauthenticated Catalog w_anonymous
  /\ outcome (run Catalog w_anonymous) = Throws (JsResponse login_redirect)
  /\ status login_redirect <> 401
  /\ forall r, outcome (run Catalog w_anonymous) <> Returns (ResultResponse r).
Proof.
  split; [eexists; reflexivity|].
  split; [reflexivity|].
  split; [discriminate|].
  intros r. vm_compute. discriminate.
Qed.

(** C5 (as amended). A Catalog-Aware request that carries both an [image]
    file of at least one byte and an [imageUrl] makes exactly one provider
    call, the encoded-payload one, on the base64 text of the file's bytes;
    the by-URL call is not made. *)
Theorem file_takes_precedence
  (w : World) (s : Session) (fd : FormData) (f : File) (u : string) (k : string) :
  authenticate_admin w = Returns s ->
  request_formData w = Returns fd ->
  FormData_get "image" fd = Some (EntryFile f) ->
  file_bytes f <> [] ->
  FormData_get "imageUrl" fd = Some (EntryString u) ->
  REMOVE_BG_API_KEY w = Some k -> k <> "" ->
  import_remove_bg w = Returns tt ->
  filter is_gateway_call (trace (CatalogAware.action w))
  = [CallRemoveBase64 (base64_options (file_bytes f) k)]
  /\ forall o, ~ In (CallRemoveUrl o) (trace (CatalogAware.action w)).
Proof.
  intros Hauth Hform Himage Hbytes Hurl Hkey Hk Himport.
  assert (Hsize : Nat.ltb 0 (file_size f) = true).
  { apply Nat.ltb_lt. unfold file_size. destruct (file_bytes f); [congruence|].
    cbn. lia. }
  assert (Hzero : Nat.eqb (file_size f) 0 = false).
  { apply Nat.eqb_neq. apply Nat.ltb_lt in Hsize. lia. }
  pose proof (encode_truthy (file_bytes f) Hbytes) as Henc.
  unfold_action. known_world w.
  rewrite Himage, Hurl. eval_async. rewrite Hzero. eval_async.
  destruct k as [|c k']; [congruence|].
  rewrite Hsize. eval_async. rewrite Henc. eval_async.
  split.
  - case_step; reflexivity.
  - intros o Hin. case_step; cbn [In] in Hin; intuition discriminate.
Qed.

Lemma file_takes_precedence_witness :
  filter is_gateway_call (trace (CatalogAware.action w_file_and_url))
  = [CallRemoveBase64 (base64_options (file_bytes cat_png) "key")]
  /\ forall o, ~ In (CallRemoveUrl o) (trace (CatalogAware.action w_file_and_url)).
Proof.
  apply (file_takes_precedence w_file_and_url session0
           [("image", EntryFile cat_png); ("imageUrl", EntryString store_url)]
           cat_png store_url "key");
    try reflexivity; discriminate.
Defined.

(** C5, refuted as stated: an [image] file and an [imageUrl] are both
    present, the file has no bytes, and the one provider call is the by-URL
    one. *)
Lemma empty_file_yields_to_url :
  FormData_get "image" [("image", EntryFile blank_png); ("imageUrl", EntryString store_url)]
  = Some (EntryFile blank_png)
  /\ FormData_get "imageUrl"
       [("image", EntryFile blank_png); ("imageUrl", EntryString store_url)]
     = Some (EntryString store_url)
  /\ filter is_gateway_call (trace (CatalogAware.action w_blank_and_url))
     = [CallRemoveUrl (url_options (Some (EntryString store_url)) "key")].
Proof. repeat split. Qed.

Lemma originalName_of_named_file (f : File) (imageUrl : option FormDataEntryValue) :
  file_name f <> "" ->
  CatalogAware.originalName (Some (EntryFile f)) imageUrl = file_name f.
Proof.
  intros Hname. unfold CatalogAware.originalName.
  destruct (file_name f); [congruence | reflexivity].
Qed.

Lemma originalName_of_nameless_file (f : File) (imageUrl : option FormDataEntryValue) :
  file_name f = "" ->
  CatalogAware.originalName (Some (EntryFile f)) imageUrl
  = CatalogAware.originalName None imageUrl.
Proof.
  intros Hname. unfold CatalogAware.originalName. now rewrite Hname.
Qed.

(** C7 (as amended). Whenever the provider answers a Catalog-Aware request,
    the action returns the success envelope: [success] true,
    [processedImageBase64] the provider's text as it came (not decoded), and
    [originalName], which is the uploaded file's name when a file with a
    non-empty name was supplied, and "Store Product Image" when no [image]
    field but a non-empty [imageUrl] was supplied. *)
Theorem catalog_success_envelope (w : World) (fd : FormData) (r : RemoveBgResult) :
  request_formData w = Returns fd ->
  gateway_answered w (trace (CatalogAware.action w)) r ->
  outcome (CatalogAware.action w)
  = Returns
      (ResultData
         (success_envelope (r_base64img r)
            (CatalogAware.originalName
               (FormData_get "image" fd) (FormData_get "imageUrl" fd))))
  /\ (forall f,
        FormData_get "image" fd = Some (EntryFile f) -> file_name f <> "" ->
        CatalogAware.originalName (FormData_get "image" fd) (FormData_get "imageUrl" fd)
        = file_name f)
  /\ (forall u,
        FormData_get "image" fd = None ->
        FormData_get "imageUrl" fd = Some (EntryString u) -> u <> "" ->
        CatalogAware.originalName (FormData_get "image" fd) (FormData_get "imageUrl" fd)
        = "Store Product Image").
Proof.
  intros Hform H. split; [|split].
  - unfold gateway_answered in H. unfold_action. known_world w.
    repeat case_step; in_trace; try same_call; congruence.
  - intros f -> Hname. now apply originalName_of_named_file.
  - intros u -> -> Hu. destruct u; [congruence | reflexivity].
Qed.

Lemma catalog_success_envelope_witness :
  outcome (CatalogAware.action w_url_only)
  = Returns (ResultData (success_envelope "TWFu" "Store Product Image")).
Proof.
  apply (catalog_success_envelope w_url_only
           [("imageUrl", EntryString store_url)] {| r_base64img := "TWFu" |}).
  - reflexivity.
  - right. eexists. split; [|reflexivity]. vm_compute. tauto.
Defined.

(** C7, refuted as stated: a file with content and an empty name is
    supplied, the provider answers, and [originalName] is not that name. *)
Lemma nameless_file_is_renamed :
  FormData_get "image" [("image", EntryFile nameless)] = Some (EntryFile nameless)
  /\ outcome (CatalogAware.action w_nameless)
     = Returns (ResultData (success_envelope "TWFu" "Processed Image"))
  /\ outcome (CatalogAware.action w_nameless)
     <> Returns (ResultData (success_envelope "TWFu" (file_name nameless))).
Proof.
  split; [reflexivity | split; [reflexivity | vm_compute; discriminate]].
Qed.

(** With a read that always resolves, the actions that take the read as a
    parameter are the actions themselves. *)
Lemma resolving_read_is_action (h : Handler) (w : World) :
  FileRead.run FileRead.resolves h w = run h w.
Proof. destruct h; reflexivity. Qed.





(** C10 (as amended). A Catalog-Aware request with a valid session and a
    configured credential behaves as follows at the edges of the
    [originalName] rule.  With an [image] file of no bytes and a non-empty
    [imageUrl], the request passes validation and the one provider call is
    the by-URL one; when the provider answers, [originalName] is the empty
    file's name if that name is non-empty, and "Store Product Image" if it
    is empty.  With an [image] file that has bytes, an empty name and no
    [imageUrl], [originalName] is "Processed Image". *)
Theorem catalog_original_name_edges
  (w : World) (s : Session) (fd : FormData) (f : File) (k : string)
  (r : RemoveBgResult) :
  authenticate_admin w = Returns s ->
  request_formData w = Returns fd ->
  FormData_get "image" fd = Some (EntryFile f) ->
  REMOVE_BG_API_KEY w = Some k -> k <> "" ->
  import_remove_bg w = Returns tt ->
  (forall u,
     file_bytes f = [] ->
     FormData_get "imageUrl" fd = Some (EntryString u) -> u <> "" ->
     removeBackgroundFromImageUrl w (url_options (Some (EntryString u)) k) = Returns r ->
     filter is_gateway_call (trace (CatalogAware.action w))
     = [CallRemoveUrl (url_options (Some (EntryString u)) k)]
     /\ (file_name f <> "" ->
         outcome (CatalogAware.action w)
         = Returns (ResultData (success_envelope (r_base64img r) (file_name f))))
     /\ (file_name f = "" ->
         outcome (CatalogAware.action w)
         = Returns (ResultData (success_envelope (r_base64img r) "Store Product Image"))))
  /\ (file_bytes f <> [] -> file_name f = "" ->
      FormData_get "imageUrl" fd = None ->
      removeBackgroundFromImageBase64 w (base64_options (file_bytes f) k) = Returns r ->
      outcome (CatalogAware.action w)
      = Returns (ResultData (success_envelope (r_base64img r) "Processed Image"))).
Proof.
  intros Hauth Hform Himage Hkey Hk Himport.
  destruct k as [|c k']; [congruence|].
  split.
  - intros u Hbytes Hurl Hu Hanswer.
    destruct u as [|cu u']; [congruence|].
    assert (Hzero : Nat.eqb (file_size f) 0 = true)
      by (unfold file_size; now rewrite Hbytes).
    assert (Hsize : Nat.ltb 0 (file_size f) = false)
      by (unfold file_size; now rewrite Hbytes).
    unfold_action. known_world w.
    rewrite Himage, Hurl. eval_async. rewrite Hzero, Hsize. eval_async.
    rewrite Hanswer. eval_async.
    split; [reflexivity|]. split; intros Hname.
    + now rewrite originalName_of_named_file.
    + now rewrite originalName_of_nameless_file.
  - intros Hbytes Hname Hurl Hanswer.
    pose proof (encode_truthy (file_bytes f) Hbytes) as Henc.
    assert (Hsize : Nat.ltb 0 (file_size f) = true).
    { unfold file_size. destruct (file_bytes f); [congruence | reflexivity]. }
    assert (Hzero : Nat.eqb (file_size f) 0 = false).
    { unfold file_size. destruct (file_bytes f); [congruence | reflexivity]. }
    unfold_action. known_world w.
    rewrite Himage, Hurl. eval_async. rewrite Hzero, Hsize. eval_async.
    rewrite Henc. eval_async. rewrite Hanswer. eval_async.
    now rewrite originalName_of_nameless_file.
Qed.

Lemma catalog_original_name_edges_witness :
  outcome (CatalogAware.action w_blank_and_url)
  = Returns (ResultData (success_envelope "TWFu" "blank.png"))
  /\ outcome (CatalogAware.action w_nameless)
     = Returns (ResultData (success_envelope "TWFu" "Processed Image")).
Proof.
  assert (Hk : "key" <> "") by discriminate.
  assert (Hu : store_url <> "") by discriminate.
  split.
  - destruct (catalog_original_name_edges w_blank_and_url session0
                [("image", EntryFile blank_png); ("imageUrl", EntryString store_url)]
                blank_png "key" {| r_base64img := "TWFu" |}
                eq_refl eq_refl eq_refl eq_refl Hk eq_refl) as [Hurl _].
    destruct (Hurl store_url eq_refl eq_refl Hu eq_refl) as (_ & Hname & _).
    apply Hname. discriminate.
  - destruct (catalog_original_name_edges w_nameless session0
                [("image", EntryFile nameless)]
                nameless "key" {| r_base64img := "TWFu" |}
                eq_refl eq_refl eq_refl eq_refl Hk eq_refl) as [_ Hfile].
    apply Hfile; try reflexivity. discriminate.
Defined.

(** C10, refuted as stated: the empty file is the one a browser submits for
    an unused file input (no bytes, empty name), a non-empty [imageUrl]
    comes with it, and [originalName] is "Store Product Image", not the
    empty file's name. *)
Lemma unselected_file_keeps_store_label :
  file_bytes unselected = []
  /\ filter is_gateway_call (trace (CatalogAware.action w_unselected_and_url))
     = [CallRemoveUrl (url_options (Some (EntryString store_url)) "key")]
  /\ outcome (CatalogAware.action w_unselected_and_url)
     = Returns (ResultData (success_envelope "TWFu" "Store Product Image"))
  /\ outcome (CatalogAware.action w_unselected_and_url)
     <> Returns (ResultData (success_envelope "TWFu" (file_name unselected))).
Proof.
  repeat split. vm_compute. discriminate.
Qed.

(* ===================================================================== *)
(** ** More about the two actions *)
(* ===================================================================== *)

(** X1. Neither action ever invokes the provider more than once during a
    request: there is no retry, whatever the collaborators answer. *)
Theorem at_most_one_gateway_call (h : Handler) (w : World) :
  gateway_calls (trace (run h w)) <= 1.
Proof.
  unfold_action. destruct h; destruct w; eval_async;
    repeat case_step; cbn; lia.
Qed.

(** X2. Every provider call an action makes carries the configured,
    non-empty credential and the fixed options size "regular" and type
    "auto". *)
Theorem gateway_call_options (h : Handler) (w : World) :
  (forall o, In (CallRemoveBase64 o) (trace (run h w)) ->
             REMOVE_BG_API_KEY w = Some (b_apiKey o) /\ b_apiKey o <> ""
             /\ b_size o = "regular" /\ b_type o = "auto")
  /\ (forall o, In (CallRemoveUrl o) (trace (run h w)) ->
                REMOVE_BG_API_KEY w = Some (u_apiKey o) /\ u_apiKey o <> ""
                /\ u_size o = "regular" /\ u_type o = "auto").
Proof.
  split; intros o H; unfold_action; destruct h; destruct w; eval_async;
    repeat case_step; in_trace; try same_call; cbn;
    repeat split; congruence.
Qed.

Lemma gateway_call_options_witness :
  REMOVE_BG_API_KEY w_upload = Some "key" /\ "key" <> ""
  /\ "regular" = "regular" /\ "auto" = "auto".
Proof.
  apply (proj1 (gateway_call_options Direct w_upload)
           (base64_options (file_bytes cat_png) "key")).
  vm_compute. tauto.
Defined.

(** X3. The Direct-Upload action never makes the by-URL provider call,
    whatever the form holds. *)
Theorem direct_upload_never_by_url (w : World) (o : UrlOptions) :
  ~ In (CallRemoveUrl o) (trace (DirectUpload.action w)).
Proof.
  intros H. unfold_action. destruct w; eval_async.
  repeat case_step; in_trace.
Qed.

(** The trace of an awaited call followed by the rest of the action. *)
Lemma trace_bind_call {A B} (ev : Event) (o : Outcome A) (k : A -> Async B) :
  trace (bind (call ev o) k)
  = ev :: match o with
          | Returns a => trace (k a)
          | Throws _ => []
          end.
Proof.
  unfold bind, call, trace. destruct o as [a|e]; [|reflexivity].
  now destruct (k a).
Qed.

(** X4. The first thing an action does is to call its authentication
    collaborator, and it does anything after that call only when the
    collaborator answered with a session. *)
Theorem authentication_comes_first (h : Handler) (w : World) :
  exists rest,
    trace (run h w) = auth_event h :: rest
    /\ (rest <> [] -> exists s, authenticated h w s).
Proof.
  destruct h; unfold run, DirectUpload.action, CatalogAware.action, authenticated;
    rewrite trace_bind_call; eexists; (split; [reflexivity|]); intros Hrest.
  - destruct (authenticate_public_appProxy w) as [[s|]|e];
      [now exists s | now destruct Hrest ..].
  - destruct (authenticate_admin w) as [s|e];
      [now exists s | now destruct Hrest].
Qed.

Lemma authentication_comes_first_witness :
  exists rest,
    trace (run Direct w_anonymous) = auth_event Direct :: rest
    /\ (rest <> [] -> exists s, authenticated Direct w_anonymous s).
Proof. apply (authentication_comes_first Direct w_anonymous). Defined.

(** X5. When loading the provider module fails, the fault is caught like a
    provider fault: the action answers status 500 with its "Failed to
    process image" envelope (the Catalog-Aware action with the message
    appended) and the provider is not invoked. *)
Theorem import_failure_envelope
  (h : Handler) (w : World) (s : Session) (fd : FormData) (k : string) (e : JsValue) :
  authenticated h w s ->
  request_formData w = Returns fd ->
  accepted h fd ->
  REMOVE_BG_API_KEY w = Some k -> k <> "" ->
  import_remove_bg w = Throws e ->
  outcome (run h w)
  = Returns (ResultResponse (Response_json (envelope (catch_message h e)) 500))
  /\ gateway_calls (trace (run h w)) = 0.
Proof.
  intros Hauth Hform Hacc Hkey Hk Himport.
  destruct k as [|c k']; [congruence|].
  unfold_action. destruct h; known_world w; unfold accepted in Hacc.
  - destruct Hacc as (f & ->). eval_async. split; reflexivity.
  - assert (Hgo : (negb (truthy (FormData_get "image" fd))
                   || size_is_zero (FormData_get "image" fd))
                  && negb (truthy (FormData_get "imageUrl" fd)) = false).
    { destruct Hacc as [-> | [-> ->]]; [apply andb_false_r | reflexivity]. }
    rewrite Hgo. split; reflexivity.
Qed.

Lemma import_failure_envelope_witness :
  outcome (run Catalog
             {| authenticate_public_appProxy := Returns (Some session0);
                authenticate_admin := Returns session0;
                request_formData := Returns [("imageUrl", EntryString store_url)];
                REMOVE_BG_API_KEY := Some "key";
                import_remove_bg := Throws (JsError "Cannot find package 'remove.bg'");
                removeBackgroundFromImageBase64 := answers "TWFu";
                removeBackgroundFromImageUrl := answers "TWFu" |})
  = Returns
      (ResultResponse
         (Response_json
            (envelope "Failed to process image: Cannot find package 'remove.bg'") 500))
  /\ gateway_calls
       (trace (run Catalog
                 {| authenticate_public_appProxy := Returns (Some session0);
                    authenticate_admin := Returns session0;
                    request_formData := Returns [("imageUrl", EntryString store_url)];
                    REMOVE_BG_API_KEY := Some "key";
                    import_remove_bg := Throws (JsError "Cannot find package 'remove.bg'");
                    removeBackgroundFromImageBase64 := answers "TWFu";
                    removeBackgroundFromImageUrl := answers "TWFu" |})) = 0.
Proof.
  apply (import_failure_envelope Catalog _ session0
           [("imageUrl", EntryString store_url)] "key"
           (JsError "Cannot find package 'remove.bg'"));
    try reflexivity; [left; reflexivity | discriminate].
Defined.

(** X6. A Direct-Upload request with a valid session, an [image] file of
    any size, a credential and a loadable provider module makes exactly one
    provider call, the encoded-payload one on the base64 text of the file's
    bytes; for a file of no bytes that text is empty. *)
Theorem direct_upload_one_payload_call
  (w : World) (s : Session) (fd : FormData) (f : File) (k : string) :
  authenticate_public_appProxy w = Returns (Some s) ->
  request_formData w = Returns fd ->
  FormData_get "image" fd = Some (EntryFile f) ->
  REMOVE_BG_API_KEY w = Some k -> k <> "" ->
  import_remove_bg w = Returns tt ->
  filter is_gateway_call (trace (DirectUpload.action w))
  = [CallRemoveBase64 (base64_options (file_bytes f) k)]
  /\ (file_bytes f = [] -> b_base64img (base64_options (file_bytes f) k) = "").
Proof.
  intros Hauth Hform Himage Hkey Hk Himport.
  destruct k as [|c k']; [congruence|].
  split.
  - unfold_action. known_world w. rewrite Himage. eval_async.
    case_step; reflexivity.
  - intros ->. reflexivity.
Qed.

Lemma direct_upload_one_payload_call_witness :
  filter is_gateway_call (trace (DirectUpload.action w_unselected_upload))
  = [CallRemoveBase64 (base64_options (file_bytes unselected) "key")]
  /\ (file_bytes unselected = []
      -> b_base64img (base64_options (file_bytes unselected) "key") = "").
Proof.
  apply (direct_upload_one_payload_call w_unselected_upload session0
           [("image", EntryFile unselected)] unselected "key");
    try reflexivity; discriminate.
Defined.

(** Without a file that has bytes, the Catalog-Aware action that gets past
    its validation makes the by-URL call on whatever [imageUrl] holds. *)
Lemma catalog_by_url
  (w : World) (s : Session) (fd : FormData) (k : string) :
  authenticate_admin w = Returns s ->
  request_formData w = Returns fd ->
  no_file_bytes fd ->
  catalog_guard_passes fd ->
  REMOVE_BG_API_KEY w = Some k -> k <> "" ->
  import_remove_bg w = Returns tt ->
  filter is_gateway_call (trace (CatalogAware.action w))
  = [CallRemoveUrl (url_options (FormData_get "imageUrl" fd) k)].
Proof.
  intros Hauth Hform Hnone Hgo Hkey Hk Himport.
  destruct k as [|c k']; [congruence|].
  unfold no_file_bytes, catalog_guard_passes in *.
  unfold_action. known_world w. rewrite Hgo.
  destruct (FormData_get "image" fd) as [[t|f]|]; eval_async.
  - case_step; reflexivity.
  - unfold file_size. rewrite (Hnone f eq_refl). eval_async.
    cbn [List.length Nat.ltb Nat.leb]. eval_async. case_step; reflexivity.
  - case_step; reflexivity.
Qed.

(** X7. A Catalog-Aware request (valid session, credential, loadable
    provider module) whose [image] field is not a file with at least one
    byte and whose [imageUrl] is a non-empty string makes exactly one
    provider call, the by-URL one, on that address. *)
Theorem catalog_url_call
  (w : World) (s : Session) (fd : FormData) (u : string) (k : string) :
  authenticate_admin w = Returns s ->
  request_formData w = Returns fd ->
  no_file_bytes fd ->
  FormData_get "imageUrl" fd = Some (EntryString u) -> u <> "" ->
  REMOVE_BG_API_KEY w = Some k -> k <> "" ->
  import_remove_bg w = Returns tt ->
  filter is_gateway_call (trace (CatalogAware.action w))
  = [CallRemoveUrl (url_options (Some (EntryString u)) k)].
Proof.
  intros Hauth Hform Hnone Hurl Hu Hkey Hk Himport.
  rewrite <- Hurl.
  apply (catalog_by_url w s fd k); try assumption.
  unfold catalog_guard_passes. rewrite Hurl.
  destruct u; [congruence|]. apply andb_false_r.
Qed.

Lemma catalog_url_call_witness :
  filter is_gateway_call (trace (CatalogAware.action w_url_only))
  = [CallRemoveUrl (url_options (Some (EntryString store_url)) "key")].
Proof.
  apply (catalog_url_call w_url_only session0
           [("imageUrl", EntryString store_url)] store_url "key");
    try reflexivity; discriminate.
Defined.

(** X8. A Catalog-Aware request whose [image] field holds non-empty text
    instead of a file, with no [imageUrl] field, gets past validation and
    makes the by-URL provider call with a null address. *)
Theorem catalog_text_image_calls_url_with_null
  (w : World) (s : Session) (fd : FormData) (c : ascii) (text : string) (k : string) :
  authenticate_admin w = Returns s ->
  request_formData w = Returns fd ->
  FormData_get "image" fd = Some (EntryString (String c text)) ->
  FormData_get "imageUrl" fd = None ->
  REMOVE_BG_API_KEY w = Some k -> k <> "" ->
  import_remove_bg w = Returns tt ->
  filter is_gateway_call (trace (CatalogAware.action w))
  = [CallRemoveUrl (url_options None k)].
Proof.
  intros Hauth Hform Himage Hurl Hkey Hk Himport.
  rewrite <- Hurl.
  apply (catalog_by_url w s fd k); try assumption.
  - intros f Hf. congruence.
  - unfold catalog_guard_passes. now rewrite Himage.
Qed.

Lemma catalog_text_image_calls_url_with_null_witness :
  filter is_gateway_call
    (trace (CatalogAware.action
              (serving [("image", EntryString "cat.png")] (Some "key")
                 (answers "TWFu") (answers "TWFu"))))
  = [CallRemoveUrl (url_options None "key")].
Proof.
  apply (catalog_text_image_calls_url_with_null _ session0
           [("image", EntryString "cat.png")] "c"%char "at.png" "key");
    try reflexivity; discriminate.
Defined.

(** X9. An action hands back a processed image (the binary response of
    the Direct-Upload action, the success object of the Catalog-Aware one)
    only after exactly one provider call, and that call answered. *)
Theorem success_needs_provider_answer (h : Handler) (w : World) (res : ActionResult) :
  outcome (run h w) = Returns res ->
  is_success res = true ->
  gateway_calls (trace (run h w)) = 1
  /\ exists r, gateway_answered w (trace (run h w)) r.
Proof.
  intros H Hok. unfold gateway_answered. unfold_action.
  destruct h; destruct w; eval_async.
  - repeat case_step; injection H as <-; try discriminate Hok;
      (split; [reflexivity|]); eexists; left; eexists; (split; [|eassumption]);
      cbn; tauto.
  - repeat case_step; injection H as <-; try discriminate Hok;
      (split; [reflexivity|]); eexists;
      first [ left; eexists; (split; [|eassumption]); cbn; tauto
            | right; eexists; (split; [|eassumption]); cbn; tauto ].
Qed.

Lemma success_needs_provider_answer_witness :
  gateway_calls (trace (run Catalog w_url_only)) = 1
  /\ exists r, gateway_answered w_url_only (trace (run Catalog w_url_only)) r.
Proof.
  apply (success_needs_provider_answer Catalog w_url_only
           (ResultData (success_envelope "TWFu" "Store Product Image")));
    reflexivity.
Defined.

(** X10. Whenever a provider call throws, the action writes the thrown
    value itself to the error log, under "Error from Remove.bg API:". *)
Theorem gateway_failure_is_logged (h : Handler) (w : World) (e : JsValue) :
  gateway_raised w (trace (run h w)) e ->
  In (ConsoleError "Error from Remove.bg API:" (Some e)) (trace (run h w)).
Proof.
  unfold gateway_raised. intros H. unfold_action.
  destruct h; destruct w; eval_async;
    repeat case_step; in_trace; try same_call;
    try congruence;
    match goal with
    | H1 : ?g ?o = Throws ?a, H2 : ?g ?o = Throws ?b |- _ =>
        rewrite H1 in H2; injection H2 as <-
    end; cbn; tauto.
Qed.

Lemma gateway_failure_is_logged_witness :
  In (ConsoleError "Error from Remove.bg API:" (Some (JsError "quota exceeded")))
     (trace (run Direct w_quota)).
Proof.
  apply (gateway_failure_is_logged Direct w_quota (JsError "quota exceeded")).
  left. eexists. split; [|reflexivity]. vm_compute. tauto.
Defined.

(* ===================================================================== *)
(** ** The loader *)
(* ===================================================================== *)

Section LoaderFacts.

Import Loader.

Lemma has_imageUrl_to_product (edge : ProductEdge) :
  has_imageUrl (to_product edge) = first_image_usable edge.
Proof.
  unfold has_imageUrl, to_product, first_image_usable, imageNode, imageUrl_of.
  cbn [p_imageUrl].
  destruct (images_edges (node edge)) as [|e rest]; [reflexivity|].
  now destruct (truthy_string (url (image_node e))).
Qed.

Lemma filter_map_to_product (es : list ProductEdge) :
  filter has_imageUrl (map to_product es)
  = map to_product (filter first_image_usable es).
Proof.
  induction es as [|edge es IH]; [reflexivity|].
  cbn [map filter]. rewrite has_imageUrl_to_product, IH.
  now destruct (first_image_usable edge).
Qed.

(** What a loader that returns went through. *)
Lemma loader_returns_inv (a : Outcome AdminApi) (ps : list ProcessedProduct) :
  loader a = Returns ps ->
  exists admin response data,
    a = Returns admin /\ graphql admin 15 = Returns response
    /\ response_json response = Returns data /\ ps = products_of data.
Proof.
  unfold loader, and_then. intros H.
  destruct a as [admin|e]; [|discriminate].
  destruct (graphql admin 15) as [response|e] eqn:Hq; [|discriminate].
  destruct (response_json response) as [data|e] eqn:Hj; [|discriminate].
  injection H as <-. now exists admin, response, data.
Qed.

Lemma truthy_string_nonempty (s : string) : truthy_string s = true -> s <> "".
Proof. destruct s; [discriminate | discriminate]. Qed.

End LoaderFacts.

(** X11. When authentication, the query and the decoding all succeed, the
    loader returns, in the order of the answer, exactly the products whose
    first image has a non-empty address, each shaped by the mapping; the
    products without such an image are dropped. *)
Theorem loader_lists_usable_products
  (a : Outcome Loader.AdminApi) (admin : Loader.AdminApi)
  (response : Loader.GraphqlResponse) (data : Loader.GraphqlBody) :
  a = Returns admin ->
  Loader.graphql admin 15 = Returns response ->
  Loader.response_json response = Returns data ->
  Loader.loader a
  = Returns (map Loader.to_product
               (filter Loader.first_image_usable (Loader.rawProducts data))).
Proof.
  intros -> Hq Hj. unfold Loader.loader, Loader.and_then.
  rewrite Hq, Hj. unfold Loader.products_of.
  now rewrite filter_map_to_product.
Qed.

Lemma loader_lists_usable_products_witness :
  Loader.loader (Returns (Loader.api_answering [Loader.mug; Loader.cap]))
  = Returns [Loader.cap_product].
Proof.
  exact (loader_lists_usable_products
           (Returns (Loader.api_answering [Loader.mug; Loader.cap]))
           (Loader.api_answering [Loader.mug; Loader.cap])
           (Loader.response_of [Loader.mug; Loader.cap])
           (Loader.body_of [Loader.mug; Loader.cap])
           eq_refl eq_refl eq_refl).
Defined.

(** X12. Every product the loader returns has an image address that is
    neither null nor empty, and an alternative text that is non-empty
    whenever the product's title is. *)
Theorem loader_products_have_image
  (a : Outcome Loader.AdminApi) (ps : list Loader.ProcessedProduct)
  (p : Loader.ProcessedProduct) :
  Loader.loader a = Returns ps ->
  In p ps ->
  (exists u, Loader.p_imageUrl p = Some u /\ u <> "")
  /\ (Loader.p_title p <> "" -> Loader.p_imageAlt p <> "").
Proof.
  intros H Hin.
  destruct (loader_returns_inv a ps H) as (admin & response & data & _ & _ & _ & ->).
  unfold Loader.products_of in Hin.
  apply filter_In in Hin. destruct Hin as [Hin Hurl].
  apply in_map_iff in Hin. destruct Hin as (edge & <- & _).
  unfold Loader.has_imageUrl, Loader.to_product in *.
  cbn [Loader.p_imageUrl Loader.p_title Loader.p_imageAlt] in *.
  unfold Loader.imageUrl_of, Loader.imageAlt_of in *.
  destruct (Loader.imageNode (Loader.node edge)) as [img|]; [|discriminate].
  split.
  - destruct (truthy_string (Loader.url img)) eqn:Ht; [|discriminate].
    exists (Loader.url img). split; [reflexivity|].
    now apply truthy_string_nonempty.
  - intros Htitle.
    destruct (Loader.altText img) as [alt|]; [|assumption].
    destruct (truthy_string alt) eqn:Ha; [|assumption].
    now apply truthy_string_nonempty.
Qed.

Lemma loader_products_have_image_witness :
  (exists u, Loader.p_imageUrl Loader.cap_product = Some u /\ u <> "")
  /\ (Loader.p_title Loader.cap_product <> ""
      -> Loader.p_imageAlt Loader.cap_product <> "").
Proof.
  apply (loader_products_have_image
           (Returns (Loader.api_answering [Loader.mug; Loader.cap]))
           [Loader.cap_product] Loader.cap_product).
  - reflexivity.
  - left. reflexivity.
Defined.

(** X14. An answer that lacks [data], [products] or [edges] is not an
    error: the loader returns the empty list. *)
Theorem loader_missing_data_is_empty
  (a : Outcome Loader.AdminApi) (admin : Loader.AdminApi)
  (response : Loader.GraphqlResponse) (data : Loader.GraphqlBody) :
  a = Returns admin ->
  Loader.graphql admin 15 = Returns response ->
  Loader.response_json response = Returns data ->
  (Loader.body_data data = None
   \/ (exists d, Loader.body_data data = Some d /\ Loader.data_products d = None)
   \/ (exists d c, Loader.body_data data = Some d /\ Loader.data_products d = Some c
                   /\ Loader.edges c = None)) ->
  Loader.loader a = Returns [].
Proof.
  intros -> Hq Hj Hmissing. unfold Loader.loader, Loader.and_then.
  rewrite Hq, Hj. unfold Loader.products_of, Loader.rawProducts.
  destruct Hmissing as [-> | [(d & -> & ->) | (d & c & -> & -> & ->)]];
    reflexivity.
Qed.

Lemma loader_missing_data_is_empty_witness :
  Loader.loader
    (Returns
       {| Loader.graphql := fun _ =>
            Returns {| Loader.response_json :=
                         Returns {| Loader.body_data := None |} |} |})
  = Returns [].
Proof.
  apply (loader_missing_data_is_empty _
           {| Loader.graphql := fun _ =>
                Returns {| Loader.response_json :=
                             Returns {| Loader.body_data := None |} |} |}
           {| Loader.response_json := Returns {| Loader.body_data := None |} |}
           {| Loader.body_data := None |} eq_refl eq_refl eq_refl).
  left. reflexivity.
Defined.

(** X15. The loader asks for the first 15 products only: against an API
    that never answers more products than asked for, the list it returns
    has at most 15 entries. *)
Theorem loader_at_most_15
  (admin : Loader.AdminApi) (ps : list Loader.ProcessedProduct) :
  (forall n response data,
     Loader.graphql admin n = Returns response ->
     Loader.response_json response = Returns data ->
     List.length (Loader.rawProducts data) <= n) ->
  Loader.loader (Returns admin) = Returns ps ->
  List.length ps <= 15.
Proof.
  intros Hfirst H.
  destruct (loader_returns_inv _ ps H) as (admin' & response & data & Ha & Hq & Hj & ->).
  injection Ha as <-.
  specialize (Hfirst 15 response data Hq Hj).
  unfold Loader.products_of.
  pose proof (filter_length_le Loader.has_imageUrl
                (map Loader.to_product (Loader.rawProducts data))) as Hle.
  rewrite length_map in Hle. lia.
Qed.

Lemma loader_at_most_15_witness :
  List.length [Loader.cap_product] <= 15.
Proof.
  apply (loader_at_most_15
           {| Loader.graphql := fun n =>
                Returns (Loader.response_of (firstn n [Loader.mug; Loader.cap])) |}
           [Loader.cap_product]).
  - intros n response data Hq Hj.
    injection Hq as <-. injection Hj as <-.
    apply firstn_le_length.
  - reflexivity.
Defined.

(* ===================================================================== *)
(** ** The page component *)
(* ===================================================================== *)

Section IndexFacts.

Import Index.

Variable createObjectURL : File -> string.

Lemma step_consistent (st : State) (ev : UiEvent) :
  consistent createObjectURL st ->
  consistent createObjectURL (fst (step createObjectURL st ev)).
Proof.
  unfold consistent. intros H.
  destruct ev as [files| | |files|u|]; cbn.
  - destruct files as [|file rest]; cbn; [assumption | now split].
  - assumption.
  - assumption.
  - destruct files as [|file rest]; cbn; [assumption|].
    destruct (String.prefix "image/" (file_type file)); cbn;
      [now split | assumption].
  - reflexivity.
  - reflexivity.
Qed.

Lemma fold_consistent (evs : list UiEvent) (st : State) :
  consistent createObjectURL st ->
  consistent createObjectURL
    (fold_left (fun st ev => fst (step createObjectURL st ev)) evs st).
Proof.
  revert st. induction evs as [|ev evs IH]; intros st H; [assumption|].
  cbn [fold_left]. apply IH. now apply step_consistent.
Qed.

End IndexFacts.

(** X16. Whatever the user does on the page (choosing or dropping files,
    dragging, picking a store product, clearing), the selection stays
    consistent: never a file and an image address together, and the preview
    shows the selected file's object URL, or else exactly the selected
    address (nothing when nothing is selected). *)
Theorem selection_stays_consistent
  (createObjectURL : File -> string) (evs : list Index.UiEvent) :
  Index.consistent createObjectURL (Index.after createObjectURL evs).
Proof.
  unfold Index.after. apply fold_consistent. reflexivity.
Qed.

(** X17. A click on the button submits at most one form, and that form has
    exactly one field: [image] with the selected file when a file is
    selected, otherwise [imageUrl] with the selected address.  It never
    holds both fields, and nothing is submitted when nothing is selected. *)
Theorem handleRemoveBg_submits_one_field (st : Index.State) :
  match Index.selectedFile st with
  | Some file => Index.handleRemoveBg st = [Index.Submit [("image", EntryFile file)]]
  | None =>
      if Index.truthy_url (Index.selectedImageUrl st) then
        exists u, Index.selectedImageUrl st = Some u /\ u <> ""
                  /\ Index.handleRemoveBg st
                     = [Index.Submit [("imageUrl", EntryString u)]]
      else Index.handleRemoveBg st = []
  end
  /\ forall fd, In (Index.Submit fd) (Index.handleRemoveBg st) ->
                List.length fd = 1
                /\ (FormData_get "image" fd = None \/ FormData_get "imageUrl" fd = None).
Proof.
  unfold Index.handleRemoveBg.
  destruct st as [[file|] [[|c u]|] preview dragging]; cbn;
    (split; [try reflexivity; try (eexists; repeat split; discriminate) |]);
    intros fd H; repeat (destruct H as [H | H]); try contradiction;
    injection H as <-; cbn; auto.
Qed.

Lemma handleRemoveBg_submits_one_field_witness :
  List.length [("image", EntryFile cat_png)] = 1
  /\ (FormData_get "image" [("image", EntryFile cat_png)] = None
      \/ FormData_get "imageUrl" [("image", EntryFile cat_png)] = None).
Proof.
  apply (proj2 (handleRemoveBg_submits_one_field
                  {| Index.selectedFile := Some cat_png;
                     Index.selectedImageUrl := None;
                     Index.previewUrl := Some "blob:1";
                     Index.isDragging := false |})).
  left. reflexivity.
Defined.

(** X18. The button and its handler agree: whenever the button is enabled,
    a click submits a form with one field. *)
Theorem enabled_button_submits (st : Index.State) (f : Index.Fetcher) :
  Index.button_disabled st f = false ->
  exists name value, Index.handleRemoveBg st = [Index.Submit [(name, value)]].
Proof.
  unfold Index.button_disabled, Index.handleRemoveBg.
  destruct st as [[file|] [[|c u]|] preview dragging]; cbn; intros H;
    try discriminate H; eauto.
Qed.

Lemma enabled_button_submits_witness :
  exists name value,
    Index.handleRemoveBg
      {| Index.selectedFile := None; Index.selectedImageUrl := Some store_url;
         Index.previewUrl := Some store_url; Index.isDragging := false |}
    = [Index.Submit [(name, value)]].
Proof.
  apply (enabled_button_submits _
           {| Index.fetcher_state := Index.Idle;
              Index.fetcher_formMethod := None;
              Index.fetcher_data := None |}).
  reflexivity.
Defined.

(** X19. Dropping files only ever selects an image: after a drop the
    selected file is the one selected before, or the first dropped file and
    its type starts with "image/".  When the first dropped file has another
    type, the selection and the preview stay as they were, the dragging
    state ends, and an error toast is shown. *)
Theorem handleDrop_selects_images_only
  (createObjectURL : File -> string) (st : Index.State) (files : list File) :
  (forall file,
     Index.selectedFile (fst (Index.handleDrop createObjectURL st files)) = Some file ->
     Index.selectedFile st = Some file
     \/ (String.prefix "image/" (file_type file) = true /\ hd_error files = Some file))
  /\ (forall file,
        hd_error files = Some file ->
        String.prefix "image/" (file_type file) = false ->
        Index.handleDrop createObjectURL st files
        = (Index.setIsDragging st false,
           [Index.PreventDefault;
            Index.ToastShow (Some (JString "Please drop a valid image file")) true])).
Proof.
  unfold Index.handleDrop. destruct files as [|dropped rest]; cbn; split.
  - now left.
  - discriminate.
  - intros file.
    destruct (String.prefix "image/" (file_type dropped)) eqn:Htype; cbn.
    + intros [= <-]. now right.
    + now left.
  - intros file [= <-] Htype. now rewrite Htype.
Qed.

Lemma handleDrop_selects_images_only_witness :
  (Index.selectedFile Index.initial = Some cat_png
   \/ (String.prefix "image/" (file_type cat_png) = true
       /\ hd_error [cat_png] = Some cat_png))
  /\ Index.handleDrop (fun _ => "blob:1") Index.initial
       [ {| file_name := "notes.txt"; file_type := "text/plain";
            file_bytes := [x68; x69] |} ]
     = (Index.initial,
        [Index.PreventDefault;
         Index.ToastShow (Some (JString "Please drop a valid image file")) true]).
Proof.
  split.
  - apply (proj1 (handleDrop_selects_images_only
                    (fun _ => "blob:1") Index.initial [cat_png]) cat_png).
    reflexivity.
  - apply (proj2 (handleDrop_selects_images_only
                    (fun _ => "blob:1") Index.initial
                    [ {| file_name := "notes.txt"; file_type := "text/plain";
                         file_bytes := [x68; x69] |} ])
             {| file_name := "notes.txt"; file_type := "text/plain";
                file_bytes := [x68; x69] |});
      reflexivity.
Defined.

(* ===================================================================== *)
(** ** The page and the Catalog-Aware action together *)
(* ===================================================================== *)

(** With a valid session and a body that parses, the Catalog-Aware action
    answers "No image provided" exactly when its guard holds. *)
Lemma catalog_rejects_iff (w : World) (s : Session) (fd : FormData) :
  authenticate_admin w = Returns s ->
  request_formData w = Returns fd ->
  outcome (CatalogAware.action w)
  = Returns (ResultResponse (Response_json (envelope "No image provided") 400))
  <-> (negb (truthy (FormData_get "image" fd)) || size_is_zero (FormData_get "image" fd))
      && negb (truthy (FormData_get "imageUrl" fd)) = true.
Proof.
  intros Hauth Hform. unfold_action. known_world w.
  destruct ((negb (truthy (FormData_get "image" fd))
             || size_is_zero (FormData_get "image" fd))
            && negb (truthy (FormData_get "imageUrl" fd))) eqn:Hguard.
  - split; reflexivity.
  - split; [intros H | discriminate].
    exfalso. repeat case_step;
      cbv [Response_json Response_buffer envelope] in H; congruence.
Qed.

(** X20. A form submitted by the page's button, received with a valid
    session, is answered "No image provided" (status 400) by the
    Catalog-Aware action exactly when the selected file has no bytes. *)
Theorem page_submission_rejected_iff
  (st : Index.State) (fd : FormData) (w : World) (s : Session) :
  In (Index.Submit fd) (Index.handleRemoveBg st) ->
  authenticate_admin w = Returns s ->
  request_formData w = Returns fd ->
  outcome (CatalogAware.action w)
  = Returns (ResultResponse (Response_json (envelope "No image provided") 400))
  <-> exists file, Index.selectedFile st = Some file /\ file_bytes file = [].
Proof.
  intros Hsubmit Hauth Hform.
  rewrite (catalog_rejects_iff w s fd Hauth Hform).
  unfold Index.handleRemoveBg in Hsubmit.
  destruct st as [[file|] [[|c u]|] preview dragging]; cbn in Hsubmit;
    repeat (destruct Hsubmit as [Hsubmit | Hsubmit]); try contradiction;
    injection Hsubmit as <-; cbn; unfold file_size.
  4: { split; [discriminate | intros (file' & [=] & _)]. }
  all: destruct (file_bytes file) as [|b bs] eqn:Hb; cbn;
    (split; [intros H | intros (file' & [= <-] & Hnil)]);
    first [ now exists file | reflexivity | discriminate | congruence ].
Qed.

Lemma page_submission_rejected_iff_witness :
  outcome (CatalogAware.action
             (serving [("image", EntryFile blank_png)] (Some "key")
                (answers "TWFu") (answers "TWFu")))
  = Returns (ResultResponse (Response_json (envelope "No image provided") 400)).
Proof.
  apply (proj2 (page_submission_rejected_iff
                  {| Index.selectedFile := Some blank_png;
                     Index.selectedImageUrl := None;
                     Index.previewUrl := Some "blob:1";
                     Index.isDragging := false |}
                  [("image", EntryFile blank_png)]
                  (serving [("image", EntryFile blank_png)] (Some "key")
                     (answers "TWFu") (answers "TWFu"))
                  session0 (or_introl eq_refl) eq_refl eq_refl)).
  exists blank_png. split; reflexivity.
Defined.

(** X21. From the catalog to the provider: picking a product the loader
    listed and clicking the button submits a form with that product's image
    address alone, and the Catalog-Aware action (valid session, credential,
    loadable provider module) then calls the provider once, by URL, on that
    address, and labels the provider's answer "Store Product Image". *)
Theorem store_product_end_to_end
  (a : Outcome Loader.AdminApi) (ps : list Loader.ProcessedProduct)
  (p : Loader.ProcessedProduct) (u : string)
  (st : Index.State) (w : World) (s : Session) (k : string) (r : RemoveBgResult) :
  Loader.loader a = Returns ps ->
  In p ps ->
  Loader.p_imageUrl p = Some u ->
  authenticate_admin w = Returns s ->
  request_formData w = Returns [("imageUrl", EntryString u)] ->
  REMOVE_BG_API_KEY w = Some k -> k <> "" ->
  import_remove_bg w = Returns tt ->
  removeBackgroundFromImageUrl w (url_options (Some (EntryString u)) k) = Returns r ->
  Index.handleRemoveBg (fst (Index.selectStoreProduct st u))
  = [Index.Submit [("imageUrl", EntryString u)]]
  /\ CatalogAware.action w
     = (Returns (ResultData (success_envelope (r_base64img r) "Store Product Image")),
        [CallAdmin; CallFormData; CallImport;
         CallRemoveUrl (url_options (Some (EntryString u)) k)]).
Proof.
  intros Hload Hin Hurl Hauth Hform Hkey Hk Himport Hanswer.
  assert (Hne : u <> "").
  { destruct (loader_returns_inv a ps Hload) as (admin & response & data & _ & _ & _ & ->).
    unfold Loader.products_of in Hin.
    apply filter_In in Hin. destruct Hin as [Hin _].
    apply in_map_iff in Hin. destruct Hin as (edge & <- & _).
    unfold Loader.to_product, Loader.imageUrl_of in Hurl. cbn [Loader.p_imageUrl] in Hurl.
    destruct (Loader.imageNode (Loader.node edge)) as [img|]; [|discriminate].
    destruct (truthy_string (Loader.url img)) eqn:Ht; [|discriminate].
    injection Hurl as <-. now apply truthy_string_nonempty. }
  destruct u as [|c u]; [congruence|].
  destruct k as [|ck k]; [congruence|].
  split; [reflexivity|].
  unfold_action. known_world w. cbn. rewrite Hanswer. reflexivity.
Qed.

Lemma store_product_end_to_end_witness :
  Index.handleRemoveBg (fst (Index.selectStoreProduct Index.initial store_url))
  = [Index.Submit [("imageUrl", EntryString store_url)]]
  /\ CatalogAware.action w_url_only
     = (Returns (ResultData (success_envelope "TWFu" "Store Product Image")),
        [CallAdmin; CallFormData; CallImport;
         CallRemoveUrl (url_options (Some (EntryString store_url)) "key")]).
Proof.
  apply (store_product_end_to_end
           (Returns (Loader.api_answering [Loader.mug; Loader.cap]))
           [Loader.cap_product] Loader.cap_product store_url
           Index.initial w_url_only session0 "key" {| r_base64img := "TWFu" |});
    try reflexivity; [left; reflexivity | discriminate].
Defined.

(** X22. From the file input to the provider: choosing a file that has
    bytes and clicking the button submits a form with that file alone, and
    the Catalog-Aware action (valid session, credential, loadable provider
    module) then calls the provider once, on the base64 text of the file's
    bytes, and returns the provider's text under the file's name, or under
    "Processed Image" when the file's name is empty. *)
Theorem chosen_file_end_to_end
  (createObjectURL : File -> string) (st : Index.State)
  (file : File) (rest : list File)
  (w : World) (s : Session) (k : string) (r : RemoveBgResult) :
  file_bytes file <> [] ->
  authenticate_admin w = Returns s ->
  request_formData w = Returns [("image", EntryFile file)] ->
  REMOVE_BG_API_KEY w = Some k -> k <> "" ->
  import_remove_bg w = Returns tt ->
  removeBackgroundFromImageBase64 w (base64_options (file_bytes file) k) = Returns r ->
  Index.handleRemoveBg (fst (Index.handleFileChange createObjectURL st (file :: rest)))
  = [Index.Submit [("image", EntryFile file)]]
  /\ CatalogAware.action w
     = (Returns
          (ResultData
             (success_envelope (r_base64img r)
                (if truthy_string (file_name file) then file_name file
                 else "Processed Image"))),
        [CallAdmin; CallFormData; CallImport; CallArrayBuffer file;
         CallRemoveBase64 (base64_options (file_bytes file) k)]).
Proof.
  intros Hbytes Hauth Hform Hkey Hk Himport Hanswer.
  pose proof (encode_truthy (file_bytes file) Hbytes) as Henc.
  assert (Hsize : Nat.ltb 0 (file_size file) = true).
  { unfold file_size. destruct (file_bytes file); [congruence | reflexivity]. }
  assert (Hzero : Nat.eqb (file_size file) 0 = false).
  { unfold file_size. destruct (file_bytes file); [congruence | reflexivity]. }
  destruct k as [|ck k]; [congruence|].
  split; [reflexivity|].
  unfold_action. known_world w.
  cbn [FormData_get String.eqb Ascii.eqb Bool.eqb]. eval_async.
  rewrite Hzero, Hsize. eval_async. rewrite Henc. eval_async.
  rewrite Hanswer. reflexivity.
Qed.

Lemma chosen_file_end_to_end_witness :
  Index.handleRemoveBg
    (fst (Index.handleFileChange (fun _ => "blob:1") Index.initial [cat_png]))
  = [Index.Submit [("image", EntryFile cat_png)]]
  /\ CatalogAware.action w_upload
     = (Returns (ResultData (success_envelope "TWFu" "cat.png")),
        [CallAdmin; CallFormData; CallImport; CallArrayBuffer cat_png;
         CallRemoveBase64 (base64_options (file_bytes cat_png) "key")]).
Proof.
  apply (chosen_file_end_to_end (fun _ => "blob:1") Index.initial cat_png []
           w_upload session0 "key" {| r_base64img := "TWFu" |});
    try reflexivity; discriminate.
Defined.

(** A response of the Catalog-Aware action never has status 200: its
    success is a plain object, its responses are error envelopes. *)
Lemma catalog_never_answers_200 (w : World) (r : Response) :
  outcome (CatalogAware.action w) = Returns (ResultResponse r) -> status r <> 200.
Proof.
  intros H. unfold_action. destruct w. eval_async.
  repeat case_step; injection H as <-; discriminate.
Qed.

(** The two shapes of what the Catalog-Aware action returns. *)
Lemma catalog_returns_shape (w : World) (res : ActionResult) :
  outcome (CatalogAware.action w) = Returns res ->
  (exists text name, res = ResultData (success_envelope text name))
  \/ (exists message st, res = ResultResponse (Response_json (envelope message) st)).
Proof.
  intros H. unfold_action. destruct w; eval_async.
  repeat case_step; injection H as <-; eauto.
Qed.

(** X23. What the page tells the user about an answer of the Catalog-Aware
    action: one toast for every value the action returns, the success toast
    when it returned a processed image, otherwise an error toast that shows
    the message of the error envelope. *)
Theorem toast_follows_action (w : World) (res : ActionResult) (f : Index.Fetcher) :
  outcome (CatalogAware.action w) = Returns res ->
  Index.fetcher_data f = Index.data_of_result res ->
  if is_success res then
    Index.toast_effect f
    = Returns [Index.ToastShow (Some (JString "Background removed successfully!")) false]
  else
    exists message st,
      res = ResultResponse (Response_json (envelope message) st)
      /\ Index.toast_effect f
         = Returns [Index.ToastShow (Some (JString message)) true].
Proof.
  intros H Hdata. unfold Index.toast_effect. rewrite Hdata. clear Hdata.
  pose proof (at_least_400 := catalog_never_answers_200 w).
  destruct (catalog_returns_shape w res H) as [(text & name & ->) | (message & st & ->)].
  - reflexivity.
  - specialize (at_least_400 _ H). cbn in at_least_400.
    cbn [is_success status Response_json].
    apply Nat.eqb_neq in at_least_400. rewrite at_least_400.
    exists message, st. split; reflexivity.
Qed.

Lemma toast_follows_action_witness :
  Index.toast_effect
    {| Index.fetcher_state := Index.Idle;
       Index.fetcher_formMethod := Some "POST";
       Index.fetcher_data := Some (envelope "Failed to process image: quota exceeded") |}
  = Returns
      [Index.ToastShow (Some (JString "Failed to process image: quota exceeded")) true].
Proof.
  destruct (toast_follows_action
              (serving [("imageUrl", EntryString store_url)] (Some "key")
                 (fails (JsError "quota exceeded")) (fails (JsError "quota exceeded")))
              (ResultResponse
                 (Response_json (envelope "Failed to process image: quota exceeded") 500))
              {| Index.fetcher_state := Index.Idle;
                 Index.fetcher_formMethod := Some "POST";
                 Index.fetcher_data :=
                   Some (envelope "Failed to process image: quota exceeded") |}
              eq_refl eq_refl) as (message & st & Hres & Htoast).
  cbv [Response_json envelope] in Hres. injection Hres as _ Hmessage.
  rewrite <- Hmessage in Htoast. exact Htoast.
Defined.


(** X24. The Catalog-Aware action never answers a processed image as a
    response: every response it returns is an error envelope with status
    400 or 500 (never 200, never 401); its success is the plain object. *)
Theorem catalog_responses_are_errors (w : World) (r : Response) :
  outcome (CatalogAware.action w) = Returns (ResultResponse r) ->
  (status r = 400 \/ status r = 500)
  /\ exists message, body r = BodyJson (envelope message).
Proof.
  intros H. unfold_action. destruct w. eval_async.
  repeat case_step; injection H as <-; cbn; eauto.
Qed.

Lemma catalog_responses_are_errors_witness :
  (status (Response_json (envelope "No image provided") 400) = 400
   \/ status (Response_json (envelope "No image provided") 400) = 500)
  /\ exists message,
       body (Response_json (envelope "No image provided") 400)
       = BodyJson (envelope message).
Proof.
  apply (catalog_responses_are_errors w_no_fields). reflexivity.
Defined.
